(** * AudioMNIST: the feature pipeline of [source/data_processing.py]

    A shallow embedding of class [DataProcessing] (zero padding, feature
    creation, min-max normalisation, label attachment) and of the dataset
    splitter that [main.py] calls, with the properties of the specification
    stated and settled against it.

    Conventions of the embedding.
    - A floating-point number is an extended rational: finite values are
      exact rationals kept in lowest terms, next to the two infinities and
      NaN.  The arithmetic the code writes out itself ([-] and [/]) is
      carried out on these without rounding; what NumPy, SciPy and
      [statistics] compute in floating point (means, differences,
      deviations, medians) is a parameter of the embedding, so that nothing
      proved of it depends on how those round.  The special values are
      modelled, because the code divides by quantities that can be zero.
    - A Python value remembers whether it is a plain Python number or a NumPy
      scalar: the two differ in what [/] does with a zero divisor.
    - A dictionary is an insertion-ordered association list with distinct
      keys; dictionaries live in a store and are passed by reference.
    - A call that can raise returns a [result]; a call that touches a
      dictionary runs in a state-and-exception monad over the store. *)

From Stdlib Require Import QArith Qround Qabs ZArith String Ascii List Lia Lqa.
From stdpp Require Import gmap strings list.

Open Scope string_scope.
Open Scope list_scope.
Open Scope Z_scope.

(** ** Exceptions and results *)

Inductive value_error :=
| DataLengthExceeds (data_length padding_length : Z)
| EmptySequence
| LowNotBelowHigh
| ShapeMismatch.

(** The Python exceptions the code can meet.  [InvalidReference] is the
    embedding's own: a reference that is not in the store, which no Python
    program can hold. *)
Inductive exn :=
| ValueError (why : value_error)
| ZeroDivisionError
| TypeError
| KeyError (key : string)
| StatisticsError
| UnboundLocalError
| InvalidReference.

Inductive result (A : Type) :=
| Ok (a : A)
| Raise (e : exn).
Arguments Ok {A} a.
Arguments Raise {A} e.

Definition rbind {A B} (r : result A) (k : A -> result B) : result B :=
  match r with
  | Ok a => k a
  | Raise e => Raise e
  end.

Notation "'try' x := r 'in' k" := (rbind r (fun x => k))
  (at level 10, x name, r at level 100, k at level 200, only parsing).

(** ** Floating-point values *)

Inductive xfloat :=
| Fin (q : Q)
| PInf
| NInf
| NaN.

Definition Qzero (q : Q) : bool := Qeq_bool q 0.
Definition Qltb (p q : Q) : bool := negb (Qle_bool q p).

Definition x_is_zero (x : xfloat) : bool :=
  match x with
  | Fin q => Qzero q
  | _ => false
  end.

Definition x_is_nan (x : xfloat) : bool :=
  match x with
  | NaN => true
  | _ => false
  end.

Definition x_is_inf (x : xfloat) : bool :=
  match x with
  | PInf | NInf => true
  | _ => false
  end.

Definition x_add (a b : xfloat) : xfloat :=
  match a, b with
  | NaN, _ | _, NaN => NaN
  | Fin p, Fin q => Fin (Qred (p + q))
  | PInf, NInf | NInf, PInf => NaN
  | PInf, _ | _, PInf => PInf
  | NInf, _ | _, NInf => NInf
  end.

Definition x_sub (a b : xfloat) : xfloat :=
  match a, b with
  | NaN, _ | _, NaN => NaN
  | Fin p, Fin q => Fin (Qred (p - q))
  | PInf, PInf | NInf, NInf => NaN
  | PInf, _ | _, NInf => PInf
  | NInf, _ | _, PInf => NInf
  end.

(** IEEE division: a zero divisor gives NaN for [0/0] and an infinity
    otherwise; nothing is raised. *)
Definition x_div (a b : xfloat) : xfloat :=
  match a, b with
  | NaN, _ | _, NaN => NaN
  | Fin p, Fin q =>
      if Qzero q then
        if Qzero p then NaN else if Qltb 0 p then PInf else NInf
      else Fin (Qred (p / q))
  | Fin _, _ => Fin 0
  | PInf, Fin q => if Qltb q 0 then NInf else PInf
  | NInf, Fin q => if Qltb q 0 then PInf else NInf
  | _, _ => NaN
  end.

(** [a < b]; every comparison with NaN is false. *)
Definition x_lt (a b : xfloat) : bool :=
  match a, b with
  | NaN, _ | _, NaN => false
  | Fin p, Fin q => Qltb p q
  | NInf, NInf => false
  | NInf, _ => true
  | _, NInf => false
  | PInf, _ => false
  | _, PInf => true
  end.

Definition x_eq (a b : xfloat) : bool :=
  match a, b with
  | Fin p, Fin q => Qeq_bool p q
  | PInf, PInf | NInf, NInf => true
  | _, _ => false
  end.

(** ** Python values *)

Inductive pyval :=
| PyNum (x : xfloat)
| NpNum (x : xfloat)
| PyStr (s : string).

(** [a - b] *)
Definition py_sub (a b : pyval) : result pyval :=
  match a, b with
  | PyStr _, _ | _, PyStr _ => Raise TypeError
  | PyNum x, PyNum y => Ok (PyNum (x_sub x y))
  | PyNum x, NpNum y | NpNum x, PyNum y | NpNum x, NpNum y =>
      Ok (NpNum (x_sub x y))
  end.

(** [a / b]: two plain Python numbers raise on a zero divisor; as soon as
    one operand is a NumPy scalar the division is NumPy's. *)
Definition py_truediv (a b : pyval) : result pyval :=
  match a, b with
  | PyStr _, _ | _, PyStr _ => Raise TypeError
  | PyNum x, PyNum y =>
      if x_is_zero y then Raise ZeroDivisionError else Ok (PyNum (x_div x y))
  | PyNum x, NpNum y | NpNum x, PyNum y | NpNum x, NpNum y =>
      Ok (NpNum (x_div x y))
  end.

(** [a < b] *)
Definition py_lt (a b : pyval) : result bool :=
  match a, b with
  | PyStr s, PyStr t => Ok (String.ltb s t)
  | PyStr _, _ | _, PyStr _ => Raise TypeError
  | PyNum x, PyNum y | PyNum x, NpNum y | NpNum x, PyNum y
  | NpNum x, NpNum y => Ok (x_lt x y)
  end.

(** [a == b] *)
Definition py_eq (a b : pyval) : bool :=
  match a, b with
  | PyStr s, PyStr t => String.eqb s t
  | PyStr _, _ | _, PyStr _ => false
  | PyNum x, PyNum y | PyNum x, NpNum y | NpNum x, PyNum y
  | NpNum x, NpNum y => x_eq x y
  end.

(** The builtin [min]: keeps the first item and replaces it by every later
    item that compares below it. *)
Fixpoint min_loop (best : pyval) (items : list pyval) : result pyval :=
  match items with
  | [] => Ok best
  | item :: rest =>
      try c := py_lt item best in
      min_loop (if c then item else best) rest
  end.

Definition py_min (values : list pyval) : result pyval :=
  match values with
  | [] => Raise (ValueError EmptySequence)
  | first :: rest => min_loop first rest
  end.

(** The builtin [max]: the same loop with [item > best]. *)
Fixpoint max_loop (best : pyval) (items : list pyval) : result pyval :=
  match items with
  | [] => Ok best
  | item :: rest =>
      try c := py_lt best item in
      max_loop (if c then item else best) rest
  end.

Definition py_max (values : list pyval) : result pyval :=
  match values with
  | [] => Raise (ValueError EmptySequence)
  | first :: rest => max_loop first rest
  end.

(** ** Dictionaries *)

Definition dict := list (string * pyval).

Definition dict_keys (d : dict) : list string := map fst d.
Definition dict_values (d : dict) : list pyval := map snd d.

Fixpoint dict_get (d : dict) (key : string) : option pyval :=
  match d with
  | [] => None
  | (k, v) :: d' => if String.eqb k key then Some v else dict_get d' key
  end.

(** [d[key] = v]: an existing key keeps its place, a new key goes last. *)
Fixpoint dict_set (d : dict) (key : string) (v : pyval) : dict :=
  match d with
  | [] => [(key, v)]
  | (k, w) :: d' =>
      if String.eqb k key then (k, v) :: d' else (k, w) :: dict_set d' key v
  end.

Definition dict_wf (d : dict) : Prop := NoDup (dict_keys d).

(** ** The store and its monad *)

Abbreviation loc := positive.
Abbreviation heap := (gmap positive dict).

Definition M (A : Type) : Type := heap -> result A * heap.

Definition ret {A} (a : A) : M A := fun h => (Ok a, h).
Definition raise {A} (e : exn) : M A := fun h => (Raise e, h).

Definition bind {A B} (m : M A) (k : A -> M B) : M B :=
  fun h =>
    match m h with
    | (Ok a, h') => k a h'
    | (Raise e, h') => (Raise e, h')
    end.

Definition lift {A} (r : result A) : M A := fun h => (r, h).

Notation "x <- c ;; k" := (bind c (fun x => k))
  (at level 100, c at next level, right associativity).
Notation "c ;; k" := (bind c (fun _ => k))
  (at level 100, right associativity).

(** [features[key]] *)
Definition getitem (features : loc) (key : string) : M pyval :=
  fun h =>
    match h !! features with
    | None => (Raise InvalidReference, h)
    | Some d =>
        match dict_get d key with
        | Some v => (Ok v, h)
        | None => (Raise (KeyError key), h)
        end
    end.

(** [features[key] = v] *)
Definition setitem (features : loc) (key : string) (v : pyval) : M unit :=
  fun h =>
    match h !! features with
    | None => (Raise InvalidReference, h)
    | Some d => (Ok tt, <[features := dict_set d key v]> h)
    end.

(** [list(features.keys())] *)
Definition keys (features : loc) : M (list string) :=
  fun h =>
    match h !! features with
    | None => (Raise InvalidReference, h)
    | Some d => (Ok (dict_keys d), h)
    end.

(** [features.values()], read at the moment it is iterated *)
Definition values (features : loc) : M (list pyval) :=
  fun h =>
    match h !! features with
    | None => (Raise InvalidReference, h)
    | Some d => (Ok (dict_values d), h)
    end.

(** [{}] *)
Definition new_dict : M loc :=
  fun h => let l := fresh (dom h) in (Ok l, <[l := []]> h).

Fixpoint for_each {A} (xs : list A) (body : A -> M unit) : M unit :=
  match xs with
  | [] => ret tt
  | x :: xs' => body x ;; for_each xs' body
  end.

(** ** [DataProcessing.normalize_features] *)

Definition normalize_body (features : loc) (key : string) : M unit :=
  a <- getitem features key ;;
  vs1 <- values features ;;
  lo1 <- lift (py_min vs1) ;;
  num <- lift (py_sub a lo1) ;;
  vs2 <- values features ;;
  hi <- lift (py_max vs2) ;;
  vs3 <- values features ;;
  lo2 <- lift (py_min vs3) ;;
  den <- lift (py_sub hi lo2) ;;
  q <- lift (py_truediv num den) ;;
  setitem features key q.

Definition normalize_features (features : loc) : M loc :=
  feature_keys <- keys features ;;
  for_each feature_keys (normalize_body features) ;;
  ret features.

(** ** [DataProcessing.add_gender] and [DataProcessing.add_digit] *)

Definition add_gender (features : loc) (gender : string) : M loc :=
  setitem features "gender" (PyStr gender) ;;
  ret features.

Definition add_digit (features : loc) (digit : string) : M loc :=
  setitem features "digit" (PyStr digit) ;;
  ret features.

(** ** [DataProcessing.__init__] and [DataProcessing.resample_data] *)

Record DataProcessing := { target_sr : Z }.

Section Resample.

(** The resampler is librosa's, the conversion NumPy's: the repository
    fixes only which arguments they are called with. *)
Variable sample : Type.
Variable astype_float32 : sample -> xfloat.
Variable librosa_core_resample :
  list xfloat -> forall (orig_sr target_sr : Z) (res_type : string), list xfloat.

Definition resample_data (self : DataProcessing) (fs : Z)
    (data : list sample) : list xfloat :=
  librosa_core_resample (map astype_float32 data) fs (target_sr self) "scipy".

End Resample.

(** ** Randomness

    A random computation is the list of its equally likely outcomes; each
    outcome returns or raises. *)

Definition R (A : Type) : Type := list (result A).

Definition rand_ret {A} (a : A) : R A := [Ok a].
Definition rand_raise {A} (e : exn) : R A := [Raise e].

Definition rand_bind {A B} (m : R A) (k : A -> R B) : R B :=
  flat_map (fun r => match r with Ok a => k a | Raise e => [Raise e] end) m.

(** [np.random.randint(low, high)]: uniform on the integers of
    [low, high), [ValueError] when the range is empty. *)
Definition randint (low high : Z) : R Z :=
  if high <=? low then rand_raise (ValueError LowNotBelowHigh)
  else map (fun i => Ok (low + Z.of_nat i)) (seq 0 (Z.to_nat (high - low))).

(** ** Arrays *)

Definition np_zeros (n : Z) : list xfloat := replicate (Z.to_nat n) (Fin 0).

(** A slice bound as Python resolves it against a sequence of length [len]:
    a negative bound counts from the end, and both are clipped. *)
Definition slice_bound (len i : Z) : Z :=
  if i <? 0 then Z.max 0 (i + len) else Z.min i len.

(** [buf[start:stop] = data]: the shapes must agree, a one-element [data]
    is broadcast. *)
Definition slice_assign (buf : list xfloat) (start stop : Z)
    (data : list xfloat) : result (list xfloat) :=
  let len := Z.of_nat (length buf) in
  let lo := slice_bound len start in
  let hi := Z.max lo (slice_bound len stop) in
  let width := Z.to_nat (hi - lo) in
  let put (src : list xfloat) :=
    Ok (firstn (Z.to_nat lo) buf ++ src ++ skipn (Z.to_nat hi) buf) in
  if Nat.eqb (length data) width then put data
  else match data with
       | [x] => put (replicate width x)
       | _ => Raise (ValueError ShapeMismatch)
       end.

(** ** [DataProcessing.zero_pad] *)

Definition zero_pad (self : DataProcessing) (data : list xfloat)
    : R (list xfloat) :=
  let padding_length := target_sr self in
  let n := Z.of_nat (length data) in
  if n <? padding_length then
    let embedded_data := np_zeros padding_length in
    rand_bind (randint 0 (padding_length - n)) (fun offset =>
      [slice_assign embedded_data offset (offset + n) data])
  else if n =? padding_length then rand_ret data
  else if padding_length <? n then
    rand_raise (ValueError (DataLengthExceeds n padding_length))
  else rand_raise UnboundLocalError.

(** ** [DataProcessing.feature_creation] *)

(** [np.mean]: the mean of an empty array is NaN; of any other array it is
    the float NumPy returns, a sum accumulated and divided in floating
    point, given by [mean_of]. *)
Definition np_mean (mean_of : list xfloat -> xfloat) (a : list xfloat)
  : xfloat :=
  match a with
  | [] => NaN
  | _ :: _ => mean_of a
  end.

(** [np.diff]: [out[i] = a[i+1] - a[i]], each difference being the float
    NumPy's subtraction returns, given by [subtract]. *)
Fixpoint np_diff (subtract : xfloat -> xfloat -> xfloat) (a : list xfloat)
  : list xfloat :=
  match a with
  | x :: (y :: _) as rest => subtract y x :: np_diff subtract rest
  | _ => []
  end.

(** [statistics.median]: [StatisticsError] on empty data; on any other data
    the value Python picks from [sorted(data)], given by [median_of]. *)
Definition statistics_median (median_of : list xfloat -> xfloat)
  (data : list xfloat) : result xfloat :=
  match data with
  | [] => Raise StatisticsError
  | _ :: _ => Ok (median_of data)
  end.

Section FeatureCreation.

(** The spectrum's element type with NumPy's magnitude, and the library
    numerics whose floating-point values are taken as they come: the
    statistics, the mean of a non-empty array, the element-wise subtraction
    and the median of non-empty data. *)
Variable complex : Type.
Variable np_abs : complex -> xfloat.
Variable np_std : list xfloat -> xfloat.
Variable scipy_stats_skew : list xfloat -> xfloat.
Variable scipy_stats_kurtosis : list xfloat -> xfloat.
Variable np_mean_of : list xfloat -> xfloat.
Variable np_subtract : xfloat -> xfloat -> xfloat.
Variable median_of : list xfloat -> xfloat.

Definition feature_creation (fft_data : list complex) : M loc :=
  let fft_data := map np_abs fft_data in
  features <- new_dict ;;
  setitem features "mean" (NpNum (np_mean np_mean_of fft_data)) ;;
  setitem features "std" (NpNum (np_std fft_data)) ;;
  med <- lift (statistics_median median_of fft_data) ;;
  setitem features "median" (NpNum med) ;;
  hi <- lift (py_max (map NpNum fft_data)) ;;
  setitem features "max" hi ;;
  lo <- lift (py_min (map NpNum fft_data)) ;;
  setitem features "min" lo ;;
  setitem features "skewness" (NpNum (scipy_stats_skew fft_data)) ;;
  setitem features "kurtosis" (NpNum (scipy_stats_kurtosis fft_data)) ;;
  a <- getitem features "max" ;;
  b <- getitem features "min" ;;
  r <- lift (py_sub a b) ;;
  setitem features "dfrange" r ;;
  q <- lift (py_truediv
               (NpNum (np_std (np_diff np_subtract fft_data)))
               (NpNum (np_mean np_mean_of (np_diff np_subtract fft_data)))) ;;
  setitem features "modindx" q ;;
  ret features.

End FeatureCreation.

(** ** The dataset splitter *)

Module DataSplit.

(** Modelled from the spec: the outcome of [DataSplit.split], whose class
    (module [src.data_split], imported and called by [main.py]) is not
    among the source files: three partitions, or the ratio error of
    section 4.5. *)
Inductive split_result (row : Type) :=
| Partitions (train val test : list row)
| InvalidRatioError.
Arguments Partitions {row} train val test.
Arguments InvalidRatioError {row}.

(** Modelled from the spec: the [round] of "[round(0.1N)] rows", which is
    Python's: to the nearest integer, a tie to the even one. *)
Definition py_round (q : Q) : Z :=
  let f := Qfloor q in
  match Qcompare (q - inject_Z f) (1 # 2) with
  | Lt => f
  | Gt => f + 1
  | Eq => if Z.even f then f else f + 1
  end.

(** Modelled from the spec: the configuration [main.py] constructs the
    splitter with, [DataSplit(test_size=0.1, val_size=0.1)]. *)
Record DataSplit := { test_size : Q; val_size : Q }.

(** Modelled from the spec: "fails with [InvalidRatioError] if
    [test_ratio + val_ratio >= 1] or either ratio is outside (0,1)". *)
Definition invalid_ratio (test_ratio val_ratio : Q) : bool :=
  Qle_bool 1 (test_ratio + val_ratio)
  || negb (Qltb 0 test_ratio && Qltb test_ratio 1)
  || negb (Qltb 0 val_ratio && Qltb val_ratio 1).

Section Split.

(** The seedable shuffle: any function of the seed that reorders the
    rows. *)
Variable row : Type.
Variable seed : Type.
Variable shuffle : seed -> list row -> list row.

(** Modelled from the spec: [DataSplit.split], "a random
    shuffle-then-slice (not necessarily stratified by label) using a
    seedable source of randomness", the ratios being "fractions of the
    total row count (rounded, with remainder going to train)". *)
Definition split (self : DataSplit) (random_state : seed)
    (df : list row) (label_column : string) : split_result row :=
  if invalid_ratio (test_size self) (val_size self) then InvalidRatioError
  else
    let shuffled := shuffle random_state df in
    let n := inject_Z (Z.of_nat (length df)) in
    let n_test := Z.to_nat (py_round (test_size self * n)) in
    let n_val := Z.to_nat (py_round (val_size self * n)) in
    let test := take n_test shuffled in
    let val := take n_val (drop n_test shuffled) in
    let train := drop (n_test + n_val) shuffled in
    Partitions train val test.

End Split.

End DataSplit.

(** ** The library statistics on exact rationals

    The textbook formulas behind [np.abs], [np.mean], [np.std],
    [scipy.stats.skew] (biased), [scipy.stats.kurtosis] (excess, biased) and
    [statistics.median], computed without rounding on rationals, with square
    roots taken to twelve decimals.  They instantiate the parameters of
    [feature_creation] wherever a concrete run is evaluated. *)

Module ExactStatistics.

Definition x_mul (a b : xfloat) : xfloat :=
  match a, b with
  | NaN, _ | _, NaN => NaN
  | Fin p, Fin q => Fin (Qred (p * q))
  | Fin p, PInf | PInf, Fin p =>
      if Qzero p then NaN else if Qltb 0 p then PInf else NInf
  | Fin p, NInf | NInf, Fin p =>
      if Qzero p then NaN else if Qltb 0 p then NInf else PInf
  | PInf, PInf | NInf, NInf => PInf
  | PInf, NInf | NInf, PInf => NInf
  end.

Definition Qsqrt (q : Q) : Q :=
  Qred (Z.sqrt (Qnum q * Zpos (Qden q) * 10 ^ 24) # (Qden q * 10 ^ 12)).

Definition x_sqrt (a : xfloat) : xfloat :=
  match a with
  | Fin q => if Qltb q 0 then NaN else Fin (Qsqrt q)
  | PInf => PInf
  | NInf | NaN => NaN
  end.

Fixpoint x_pow (a : xfloat) (k : nat) : xfloat :=
  match k with
  | O => Fin 1
  | S k' => x_mul a (x_pow a k')
  end.

(** A spectrum coefficient, real and imaginary part *)
Definition complex : Type := Q * Q.

Definition np_abs (z : complex) : xfloat :=
  x_sqrt (Fin (Qred (fst z * fst z + snd z * snd z))).

(** Sum over length *)
Definition np_sum (a : list xfloat) : xfloat := fold_left x_add a (Fin 0).

Definition np_mean_of (a : list xfloat) : xfloat :=
  x_div (np_sum a) (Fin (inject_Z (Z.of_nat (length a)))).

Definition np_subtract (y x : xfloat) : xfloat := x_sub y x.

(** [sorted] on data free of NaN: a stable sort by [<] *)
Fixpoint sorted_insert (x : xfloat) (l : list xfloat) : list xfloat :=
  match l with
  | [] => [x]
  | y :: l' => if x_lt y x then y :: sorted_insert x l' else x :: y :: l'
  end.

Definition sorted (data : list xfloat) : list xfloat :=
  fold_right sorted_insert [] data.

(** The middle element of the sorted data, or the mean of the two middle
    ones *)
Definition median_of (data : list xfloat) : xfloat :=
  let data := sorted data in
  let n := length data in
  if Nat.eqb (n mod 2) 1 then nth (n / 2) data NaN
  else
    let i := (n / 2)%nat in
    x_div (x_add (nth (i - 1) data NaN) (nth i data NaN)) (Fin 2).

Definition moment (k : nat) (a : list xfloat) : xfloat :=
  let m := np_mean_of a in
  np_mean_of (map (fun x => x_pow (x_sub x m) k) a).

Definition np_std (a : list xfloat) : xfloat := x_sqrt (moment 2 a).

Definition scipy_stats_skew (a : list xfloat) : xfloat :=
  x_div (moment 3 a) (x_mul (moment 2 a) (x_sqrt (moment 2 a))).

Definition scipy_stats_kurtosis (a : list xfloat) : xfloat :=
  x_sub (x_div (moment 4 a) (x_mul (moment 2 a) (moment 2 a))) (Fin 3).

Definition feature_creation : list complex -> M loc :=
  feature_creation complex np_abs np_std scipy_stats_skew
    scipy_stats_kurtosis np_mean_of np_subtract median_of.

End ExactStatistics.

(** ** The loop of [normalize_features] on the dictionary itself

    What one iteration and the whole loop do to the dictionary the reference
    points to; [normalize_features_run] below shows that the monadic code
    computes exactly this. *)

(** The right-hand side [(a - min(vs)) / (max(vs) - min(vs))]. *)
Definition scale (a : pyval) (vs : list pyval) : result pyval :=
  try lo1 := py_min vs in
  try num := py_sub a lo1 in
  try hi := py_max vs in
  try lo2 := py_min vs in
  try den := py_sub hi lo2 in
  py_truediv num den.

Definition normalize_key (d : dict) (key : string) : result dict :=
  match dict_get d key with
  | None => Raise (KeyError key)
  | Some a =>
      try q := scale a (dict_values d) in
      Ok (dict_set d key q)
  end.

(** The dictionary is returned also when a key raises: the updates made
    before the exception stay. *)
Fixpoint normalize_keys (ks : list string) (d : dict) : result unit * dict :=
  match ks with
  | [] => (Ok tt, d)
  | key :: rest =>
      match normalize_key d key with
      | Ok d' => normalize_keys rest d'
      | Raise e => (Raise e, d)
      end
  end.

(** ** Predicates on feature vectors *)

(** All values compare equal under [==]. *)
Definition all_equal (vs : list pyval) : bool :=
  forallb (fun v => forallb (py_eq v) vs) vs.

Definition python_finite (v : pyval) : bool :=
  match v with
  | PyNum (Fin _) => true
  | _ => false
  end.

Definition numpy_finite (v : pyval) : bool :=
  match v with
  | NpNum (Fin _) => true
  | _ => false
  end.

(** Every value replaced by NumPy's NaN. *)
Definition all_nan (d : dict) : dict := map (fun kv => (fst kv, NpNum NaN)) d.

Definition constant_python_features : dict :=
  [("mean", PyNum (Fin 7)); ("std", PyNum (Fin 7)); ("median", PyNum (Fin 7))].

Definition constant_numpy_features : dict :=
  [("mean", NpNum (Fin 7)); ("std", NpNum (Fin 7)); ("median", NpNum (Fin 7))].

(** ** The padded buffer

    [data] placed at [offset] in a buffer of [total] zeros. *)
Definition embedded (offset total : nat) (data : list xfloat) : list xfloat :=
  replicate offset (Fin 0) ++ data
    ++ replicate (total - length data - offset) (Fin 0).

(** ** The feature keys, in the order [feature_creation] inserts them *)
Definition feature_keys : list string :=
  ["mean"; "std"; "median"; "max"; "min"; "skewness"; "kurtosis";
   "dfrange"; "modindx"].

(** ** Example dictionaries *)

(** Three Python floats that binary floating point represents exactly, as
    do all the intermediate results of normalising them. *)
Definition three_features : dict :=
  [("mean", PyNum (Fin (11 # 4))); ("std", PyNum (Fin 1));
   ("median", PyNum (Fin (9 # 2)))].

Definition three_features_normalized : dict :=
  [("mean", PyNum (Fin (1 # 2))); ("std", PyNum (Fin (1 # 8)));
   ("median", PyNum (Fin 1))].

Definition negative_features : dict :=
  [("skewness", PyNum (Fin (-3))); ("kurtosis", PyNum (Fin (-4)));
   ("modindx", PyNum (Fin (-2)))].

Definition negative_features_normalized : dict :=
  [("skewness", PyNum (Fin (1 # 2))); ("kurtosis", PyNum (Fin 0));
   ("modindx", PyNum (Fin 0))].

Definition two_features : dict :=
  [("mean", PyNum (Fin 2)); ("std", PyNum (Fin 1))].

(** A vector of the shape [feature_creation] returns. *)
Definition recording_features : dict :=
  [("mean", NpNum (Fin 10)); ("std", NpNum (Fin 20));
   ("median", NpNum (Fin 5)); ("max", NpNum (Fin 1000));
   ("min", NpNum (Fin (1 # 2))); ("skewness", NpNum (Fin 8));
   ("kurtosis", NpNum (Fin 100)); ("dfrange", NpNum (Fin (1999 # 2)));
   ("modindx", NpNum (Fin 5000))].

(** ** Inputs of the repository's tests and of the specification's examples *)

(** [self.fft_data] of [test/test_data_processing.py] *)
Definition test_fft_data : list ExactStatistics.complex :=
  [(1, 0); (-2 # 10, 2 # 10); (-2 # 10, 0); (-2 # 10, -2 # 10)]%Q.

(** [self.feature_dict] of [test/test_data_processing.py] *)
Definition test_feature_dict : dict :=
  [("mean", PyNum (Fin 0)); ("std", PyNum (Fin 10)); ("med", PyNum (Fin 20));
   ("q25", PyNum (Fin 30)); ("q75", PyNum (Fin 40)); ("min", PyNum (Fin 50));
   ("max", PyNum (Fin 60)); ("skew", PyNum (Fin 70)); ("kurt", PyNum (Fin 80));
   ("sfm", PyNum (Fin 90)); ("cent", PyNum (Fin 100))].

(** A spectrum with magnitudes 1, 0.28, 0.2, 0.28 *)
Definition example_spectrum : list ExactStatistics.complex :=
  [(1, 0); (28 # 100, 0); (2 # 10, 0); (28 # 100, 0)]%Q.

(** A spectrum with magnitudes 1, 2, 1: its first differences are 1 and -1 *)
Definition flat_trend_spectrum : list ExactStatistics.complex :=
  [(1, 0); (2, 0); (1, 0)]%Q.

(** ** More on [zero_pad] *)

Definition x_nonzero (x : xfloat) : bool := negb (x_is_zero x).

(** ** More predicates on feature vectors *)

Definition is_str (v : pyval) : bool :=
  match v with
  | PyStr _ => true
  | _ => false
  end.

Definition is_numpy (v : pyval) : bool :=
  match v with
  | NpNum _ => true
  | _ => false
  end.

Definition labelled_features : dict :=
  [("mean", PyNum (Fin 3)); ("gender", PyStr "female")].

Definition x_is_finite (x : xfloat) : bool :=
  match x with
  | Fin _ => true
  | _ => false
  end.

(** ** [main.py]: the file name of a recording

    [DataPreparation] takes the digit, the speaker and the repetition from
    the name of each file: [file.rstrip(".wav").split("/")[-1].split("_")],
    unpacked into three names. *)

Definition char_in (c : ascii) (chars : string) : bool :=
  existsb (Ascii.eqb c) (list_ascii_of_string chars).

(** [s.rstrip(chars)]: drops trailing characters for as long as they occur
    in [chars]. *)
Fixpoint str_rstrip (chars s : string) : string :=
  match s with
  | EmptyString => EmptyString
  | String c s' =>
      match str_rstrip chars s' with
      | EmptyString =>
          if char_in c chars then EmptyString else String c EmptyString
      | String _ _ as t => String c t
      end
  end.

(** [s.split(sep)] for a separator of one character *)
Fixpoint str_split (sep : ascii) (s : string) : list string :=
  match s with
  | EmptyString => [EmptyString]
  | String c s' =>
      if Ascii.eqb c sep then EmptyString :: str_split sep s'
      else match str_split sep s' with
           | [] => [String c EmptyString]
           | w :: ws => String c w :: ws
           end
  end.

Fixpoint count_char (c : ascii) (s : string) : nat :=
  match s with
  | EmptyString => 0
  | String c' s' => (if Ascii.eqb c' c then 1 else 0) + count_char c s'
  end.

(** What the line can raise: the [ValueError] of an unpacking that does not
    find three values, and the [IndexError] of [[-1]] on an empty list. *)
Inductive file_name_error :=
| UnpackValueError (got : nat)
| IndexError.

Inductive file_name_result :=
| FileParts (dig vp rep : string)
| FileNameError (e : file_name_error).

Definition split_file_string (file : string) : file_name_result :=
  match last (str_split "/"%char (str_rstrip ".wav" file)) with
  | None => FileNameError IndexError
  | Some name =>
      match str_split "_"%char name with
      | [dig; vp; rep] => FileParts dig vp rep
      | parts => FileNameError (UnpackValueError (length parts))
      end
  end.

(** The last path element of the stripped name, the string that is split
    at the underscores. *)
Definition file_stem (file : string) : string :=
  match last (str_split "/"%char (str_rstrip ".wav" file)) with
  | Some name => name
  | None => EmptyString
  end.

(** ** [XGBoostModel.create_log_df]

    The evaluation log is a dictionary of dictionaries of lists; the frame
    built from it is its column names and its rows. *)

Section CreateLogDf.

(** The type of a logged metric value *)
Variable metric : Type.

Record log_frame := {
  log_columns : list string;
  log_rows : list (nat * metric * metric * metric * metric)
}.

(** [log_data[eval_set][name]] *)
Definition log_series (log_data : gmap string (gmap string (list metric)))
    (eval_set name : string) : result (list metric) :=
  match log_data !! eval_set with
  | None => Raise (KeyError eval_set)
  | Some metrics =>
      match metrics !! name with
      | None => Raise (KeyError name)
      | Some series => Ok series
      end
  end.

(** [list(zip(a, b, c, d, e))]: stops with the shortest argument. *)
Fixpoint zip5 {A B C D E} (a : list A) (b : list B) (c : list C)
    (d : list D) (e : list E) : list (A * B * C * D * E) :=
  match a, b, c, d, e with
  | x :: a', y :: b', z :: c', u :: d', v :: e' =>
      (x, y, z, u, v) :: zip5 a' b' c' d' e'
  | _, _, _, _, _ => []
  end.

Definition create_log_df
    (log_data : gmap string (gmap string (list metric))) : result log_frame :=
  try train_loss := log_series log_data "validation_0" "logloss" in
  try val_loss := log_series log_data "validation_1" "logloss" in
  try train_acc := log_series log_data "validation_0" "accuracy" in
  try val_acc := log_series log_data "validation_1" "accuracy" in
  let iteration := seq 0 (length train_loss) in
  let columns :=
    ["iteration"; "train_loss"; "train_acc"; "val_loss"; "val_acc"] in
  Ok {| log_columns := columns;
        log_rows := zip5 iteration train_loss train_acc val_loss val_acc |}.

End CreateLogDf.

Arguments log_columns {metric} _.
Arguments log_rows {metric} _.

(** ** [Utilities.remove_column]

    A data frame is its number of rows and its labelled columns, in order;
    what is printed is returned next to the result. *)

Record DataFrame := {
  df_rows : nat;
  df_columns : list (string * list pyval)
}.

Definition column_names (df : DataFrame) : list string :=
  map fst (df_columns df).

(** [df.shape] *)
Definition df_shape (df : DataFrame) : nat * nat :=
  (df_rows df, length (df_columns df)).

(** [df.drop([column], axis=1)]: every column with that label goes,
    [KeyError] when there is none. *)
Definition df_drop (df : DataFrame) (column : string) : result DataFrame :=
  if existsb (String.eqb column) (column_names df) then
    Ok {| df_rows := df_rows df;
          df_columns :=
            List.filter (fun c => negb (String.eqb (fst c) column))
              (df_columns df) |}
  else Raise (KeyError column).

Definition remove_column (df : DataFrame) (column : string)
    : result DataFrame * list string :=
  if existsb (String.eqb column) (column_names df) then
    (df_drop df column, [])
  else
    (Ok df, [(column ++ " not found in DataFrame.")%string]).

(** A log of three boosting rounds whose validation accuracy lacks the last
    round. *)
Definition example_log : gmap string (gmap string (list Q)) :=
  {[ "validation_0" :=
       {[ "logloss" := [6 # 10; 5 # 10; 4 # 10];
          "accuracy" := [7 # 10; 8 # 10; 9 # 10] ]};
     "validation_1" :=
       {[ "logloss" := [7 # 10; 6 # 10; 6 # 10];
          "accuracy" := [6 # 10; 7 # 10] ]} ]}%Q.

Definition example_frame : DataFrame :=
  {| df_rows := 2;
     df_columns :=
       [("mean", [NpNum (Fin 0); NpNum (Fin 1)]);
        ("gender", [PyStr "male"; PyStr "female"]);
        ("digit", [PyStr "0"; PyStr "7"])] |}.

(** * Properties *)

(** ** Running the monadic code *)

Lemma getitem_run (h : heap) l d key :
  h !! l = Some d ->
  getitem l key h =
    (match dict_get d key with Some v => Ok v | None => Raise (KeyError key) end, h).
Proof. intros Hl. unfold getitem. rewrite Hl. by destruct (dict_get d key). Qed.

Lemma setitem_run (h : heap) l d key v :
  h !! l = Some d -> setitem l key v h = (Ok tt, <[l := dict_set d key v]> h).
Proof. intros Hl. unfold setitem. by rewrite Hl. Qed.

Lemma values_run (h : heap) l d :
  h !! l = Some d -> values l h = (Ok (dict_values d), h).
Proof. intros Hl. unfold values. by rewrite Hl. Qed.

Lemma keys_run (h : heap) l d :
  h !! l = Some d -> keys l h = (Ok (dict_keys d), h).
Proof. intros Hl. unfold keys. by rewrite Hl. Qed.

Lemma normalize_body_run (h : heap) l d key :
  h !! l = Some d ->
  normalize_body l key h =
    match normalize_key d key with
    | Ok d' => (Ok tt, <[l := d']> h)
    | Raise e => (Raise e, h)
    end.
Proof.
  intros Hl. unfold normalize_body, normalize_key, scale, bind, lift.
  rewrite (getitem_run h l d key Hl).
  destruct (dict_get d key) as [a|]; [|done].
  rewrite (values_run h l d Hl). simpl.
  destruct (py_min (dict_values d)) as [lo|e] eqn:Hlo; [simpl|done].
  destruct (py_sub a lo) as [num|e]; [simpl|done].
  rewrite (values_run h l d Hl).
  destruct (py_max (dict_values d)) as [hi|e]; [simpl|done].
  rewrite (values_run h l d Hl), Hlo. simpl.
  destruct (py_sub hi lo) as [den|e]; [simpl|done].
  destruct (py_truediv num den) as [q|e]; [simpl|done].
  by apply setitem_run.
Qed.

Lemma for_each_normalize_run ks : forall (h : heap) l d,
  h !! l = Some d ->
  for_each ks (normalize_body l) h =
    (fst (normalize_keys ks d), <[l := snd (normalize_keys ks d)]> h).
Proof.
  induction ks as [|key rest IH]; intros h l d Hl; simpl.
  - unfold ret. by rewrite insert_id.
  - unfold bind. rewrite (normalize_body_run h l d key Hl).
    destruct (normalize_key d key) as [d'|e]; simpl.
    + rewrite (IH (<[l := d']> h) l d') by apply lookup_insert_eq.
      by rewrite insert_insert_eq.
    + by rewrite insert_id.
Qed.

Lemma normalize_features_run (h : heap) l d :
  h !! l = Some d ->
  normalize_features l h =
    (match fst (normalize_keys (dict_keys d) d) with
     | Ok _ => Ok l
     | Raise e => Raise e
     end,
     <[l := snd (normalize_keys (dict_keys d) d)]> h).
Proof.
  intros Hl. unfold normalize_features, bind.
  rewrite (keys_run h l d Hl).
  rewrite (for_each_normalize_run _ h l d Hl).
  by destruct (fst (normalize_keys (dict_keys d) d)).
Qed.

(** ** Dictionaries *)

Lemma dict_get_app_fresh done key v rest :
  key ∉ dict_keys done ->
  dict_get (done ++ (key, v) :: rest) key = Some v.
Proof.
  induction done as [|[k w] done IH]; simpl; intros Hk.
  - by rewrite String.eqb_refl.
  - apply not_elem_of_cons in Hk as [Hne Hk].
    destruct (String.eqb_spec k key) as [->|_]; [done|]. by apply IH.
Qed.

Lemma dict_set_app_fresh done key v rest q :
  key ∉ dict_keys done ->
  dict_set (done ++ (key, v) :: rest) key q = done ++ (key, q) :: rest.
Proof.
  induction done as [|[k w] done IH]; simpl; intros Hk.
  - by rewrite String.eqb_refl.
  - apply not_elem_of_cons in Hk as [Hne Hk].
    destruct (String.eqb_spec k key) as [->|_]; [done|]. by rewrite IH.
Qed.

Lemma dict_keys_set_present d key q :
  key ∈ dict_keys d -> dict_keys (dict_set d key q) = dict_keys d.
Proof.
  induction d as [|[k w] d IH]; simpl; intros Hk.
  - by apply elem_of_nil in Hk.
  - destruct (String.eqb_spec k key) as [->|Hne]; [done|]. simpl.
    apply elem_of_cons in Hk as [->|Hk]; [done|]. by rewrite IH.
Qed.

Lemma dict_get_Some_key d key v : dict_get d key = Some v -> key ∈ dict_keys d.
Proof.
  induction d as [|[k w] d IH]; simpl; [done|].
  destruct (String.eqb_spec k key) as [->|_]; intros H.
  - apply elem_of_cons; by left.
  - apply elem_of_cons; right; by apply IH.
Qed.

Lemma normalize_key_keys d key d' :
  normalize_key d key = Ok d' -> dict_keys d' = dict_keys d.
Proof.
  unfold normalize_key. destruct (dict_get d key) as [a|] eqn:Hg; [|done].
  destruct (scale a (dict_values d)) as [q|]; simpl; [|done].
  intros [= <-]. apply dict_keys_set_present. by eapply dict_get_Some_key.
Qed.

Lemma normalize_keys_keys ks : forall d,
  dict_keys (snd (normalize_keys ks d)) = dict_keys d.
Proof.
  induction ks as [|key rest IH]; intros d; simpl; [done|].
  destruct (normalize_key d key) as [d'|e] eqn:Hk; [|done].
  rewrite IH. by eapply normalize_key_keys.
Qed.

Lemma dict_wf_app_fresh done key v rest :
  dict_wf (done ++ (key, v) :: rest) -> key ∉ dict_keys done.
Proof.
  unfold dict_wf, dict_keys. rewrite map_app.
  intros (_ & Hdisj & _)%NoDup_app Hin.
  apply (Hdisj key Hin). simpl. apply elem_of_cons. by left.
Qed.

Lemma dict_wf_keys d d' : dict_keys d = dict_keys d' -> dict_wf d -> dict_wf d'.
Proof. unfold dict_wf. by intros ->. Qed.

Lemma dict_keys_app d d' : dict_keys (d ++ d') = dict_keys d ++ dict_keys d'.
Proof. apply map_app. Qed.

Lemma dict_values_app d d' :
  dict_values (d ++ d') = dict_values d ++ dict_values d'.
Proof. apply map_app. Qed.

(** The loop invariant: the entries already visited hold their new values,
    the entries still to visit hold their old ones, and the entry visited
    next is scaled against the values of both. *)
Lemma normalize_keys_mixture todo : forall done d',
  dict_wf (done ++ todo) ->
  normalize_keys (dict_keys todo) (done ++ todo) = (Ok tt, d') ->
  exists todo',
    d' = done ++ todo' /\
    dict_keys todo' = dict_keys todo /\
    forall (i : nat) key v, todo !! i = Some (key, v) ->
      exists r, todo' !! i = Some (key, r) /\
        scale v (dict_values done ++ take i (dict_values todo')
                   ++ drop i (dict_values todo)) = Ok r.
Proof.
  induction todo as [|[k v] rest IH]; intros done d' Hwf; simpl.
  - intros [= <-]. exists []. split; [done|]. split; [done|].
    intros i key v Hi. by rewrite lookup_nil in Hi.
  - pose proof (dict_wf_app_fresh _ _ _ _ Hwf) as Hk.
    unfold normalize_key. rewrite (dict_get_app_fresh _ _ _ _ Hk).
    destruct (scale v (dict_values (done ++ (k, v) :: rest))) as [q|e] eqn:Hq;
      simpl; [|done].
    rewrite (dict_set_app_fresh _ _ _ _ _ Hk).
    replace (done ++ (k, q) :: rest) with ((done ++ [(k, q)]) ++ rest)
      by (by rewrite <- app_assoc).
    intros Hrun. apply IH in Hrun as (todo' & -> & Hkeys & Hi).
    + exists ((k, q) :: todo'). split; [by rewrite <- app_assoc|].
      split; [simpl; by rewrite Hkeys|].
      intros [|i] key w Hlook; simpl in Hlook.
      * injection Hlook as <- <-. exists q. split; [done|].
        simpl. rewrite <- Hq. by rewrite dict_values_app.
      * destruct (Hi i key w Hlook) as (r & Hr & Hs). exists r.
        split; [done|]. rewrite <- Hs. f_equal.
        rewrite dict_values_app. simpl. by rewrite <- app_assoc.
    + eapply dict_wf_keys; [|exact Hwf].
      rewrite !dict_keys_app. simpl. by rewrite <- app_assoc.
Qed.

(** ** [normalize_features]: what the loop computes *)

Lemma three_features_wf : dict_wf three_features.
Proof. unfold dict_wf. apply (bool_decide_unpack _). by vm_compute. Qed.

(** C2. [normalize_features] visits the keys in iteration order and writes
    each new value into the dictionary before it visits the next key, taking
    the minimum and the maximum of the dictionary as it is at that moment.
    So when the call returns, the value at position [i] is the old value
    scaled against the new values of the positions before [i] together with
    the old values of the positions from [i] on; for the first key that is
    the original vector.  For a later key it need not be: in
    [three_features] the second key ends at 1/8, where the original minimum
    and maximum would give 0. *)
Theorem normalize_features_sequential :
  (forall (h h' : heap) l l' d,
     h !! l = Some d -> dict_wf d ->
     normalize_features l h = (Ok l', h') ->
     exists d',
       h' !! l = Some d' /\
       dict_keys d' = dict_keys d /\
       (forall (i : nat) key v, d !! i = Some (key, v) ->
          exists r, d' !! i = Some (key, r) /\
            scale v (take i (dict_values d') ++ drop i (dict_values d)) = Ok r) /\
       (forall key v, d !! 0%nat = Some (key, v) ->
          exists r, d' !! 0%nat = Some (key, r) /\
            scale v (dict_values d) = Ok r)) /\
  (exists (h h' : heap) l d d' key v r,
     h !! l = Some d /\ dict_wf d /\
     normalize_features l h = (Ok l, h') /\ h' !! l = Some d' /\
     d !! 1%nat = Some (key, v) /\ d' !! 1%nat = Some (key, r) /\
     scale v (dict_values d) = Ok (PyNum (Fin 0)) /\
     r = PyNum (Fin (1 # 8))).
Proof.
  split.
  - intros h h' l l' d Hl Hwf Hrun.
    rewrite (normalize_features_run h l d Hl) in Hrun.
    destruct (normalize_keys (dict_keys d) d) as [r d'] eqn:Hloop.
    simpl in Hrun. destruct r as [[]|e]; [|done].
    injection Hrun as <- <-.
    destruct (normalize_keys_mixture d [] d' Hwf Hloop)
      as (todo' & -> & Hkeys & Hmix).
    exists todo'. split; [apply lookup_insert_eq|].
    split; [done|]. split; [exact Hmix|].
    intros key v H0. destruct (Hmix 0%nat key v H0) as (r & Hr & Hs).
    exists r. split; [done|]. simpl in Hs. by rewrite drop_0 in Hs.
  - exists {[ 1%positive := three_features ]},
           {[ 1%positive := three_features_normalized ]},
           1%positive, three_features, three_features_normalized,
           "std", (PyNum (Fin 1)), (PyNum (Fin (1 # 8))).
    split; [reflexivity|]. split; [exact three_features_wf|].
    vm_compute. by repeat split.
Qed.

Lemma normalize_features_sequential_witness :
  exists d',
    ({[ 1%positive := three_features_normalized ]} : heap) !! 1%positive
      = Some d' /\
    dict_keys d' = dict_keys three_features /\
    (forall (i : nat) key v, three_features !! i = Some (key, v) ->
       exists r, d' !! i = Some (key, r) /\
         scale v (take i (dict_values d')
                    ++ drop i (dict_values three_features)) = Ok r) /\
    (forall key v, three_features !! 0%nat = Some (key, v) ->
       exists r, d' !! 0%nat = Some (key, r) /\
         scale v (dict_values three_features) = Ok r).
Proof.
  apply (proj1 normalize_features_sequential
           {[ 1%positive := three_features ]}
           {[ 1%positive := three_features_normalized ]}
           1%positive 1%positive three_features).
  - reflexivity.
  - exact three_features_wf.
  - vm_compute. reflexivity.
Defined.

(** C1. The code does not deliver min-max normalisation.  On
    [three_features] the call returns with minimum 1/8, not 0; on
    [negative_features] it returns with maximum 1/2, not 1, and the first
    key, smaller than the third before the call, is larger after it; on
    [two_features], whose values differ, it raises [ZeroDivisionError] at
    the second key; and on [recording_features], a vector of the shape
    [feature_creation] builds, the minimum of the result is positive. *)
Theorem normalize_features_not_min_max :
  (normalize_features 1%positive {[ 1%positive := three_features ]}
     = (Ok 1%positive, {[ 1%positive := three_features_normalized ]}) /\
   py_min (dict_values three_features_normalized) = Ok (PyNum (Fin (1 # 8)))) /\
  (normalize_features 1%positive {[ 1%positive := negative_features ]}
     = (Ok 1%positive, {[ 1%positive := negative_features_normalized ]}) /\
   py_max (dict_values negative_features_normalized) = Ok (PyNum (Fin (1 # 2))) /\
   py_lt (PyNum (Fin (-3))) (PyNum (Fin (-2))) = Ok true /\
   py_lt (PyNum (Fin 0)) (PyNum (Fin (1 # 2))) = Ok true) /\
  normalize_features 1%positive {[ 1%positive := two_features ]}
    = (Raise ZeroDivisionError,
       {[ 1%positive := [("mean", PyNum (Fin 1)); ("std", PyNum (Fin 1))] ]}) /\
  (exists d',
     normalize_features 1%positive {[ 1%positive := recording_features ]}
       = (Ok 1%positive, {[ 1%positive := d' ]}) /\
     py_min (dict_values d')
       = Ok (NpNum (Fin (49895029 # 499949710048)))).
Proof.
  split; [split; vm_compute; reflexivity|].
  split; [vm_compute; by repeat split|].
  split; [vm_compute; reflexivity|].
  eexists. split; vm_compute; reflexivity.
Qed.

(** ** [normalize_features] on a constant vector *)

Lemma Qltb_irrefl_eq p q : Qeq_bool p q = true -> Qltb p q = false.
Proof.
  intros H. apply Qeq_bool_iff in H. unfold Qltb.
  apply negb_false_iff, Qle_bool_iff. rewrite H. apply Qle_refl.
Qed.

Lemma Qzero_sub_self q : Qzero (Qred (q - q)) = true.
Proof.
  unfold Qzero. apply Qeq_bool_iff. rewrite Qred_correct. ring.
Qed.

Lemma min_loop_keeps best items :
  (forall w, w ∈ items -> py_lt w best = Ok false) ->
  min_loop best items = Ok best.
Proof.
  induction items as [|w items IH]; simpl; intros H; [done|].
  rewrite (H w) by (apply elem_of_cons; by left). simpl.
  apply IH. intros w' Hw'. apply H, elem_of_cons. by right.
Qed.

Lemma max_loop_keeps best items :
  (forall w, w ∈ items -> py_lt best w = Ok false) ->
  max_loop best items = Ok best.
Proof.
  induction items as [|w items IH]; simpl; intros H; [done|].
  rewrite (H w) by (apply elem_of_cons; by left). simpl.
  apply IH. intros w' Hw'. apply H, elem_of_cons. by right.
Qed.

Lemma all_equal_elim vs v w :
  all_equal vs = true -> v ∈ vs -> w ∈ vs -> py_eq v w = true.
Proof.
  unfold all_equal. intros H Hv Hw.
  apply list_elem_of_In in Hv, Hw.
  rewrite forallb_forall in H. specialize (H v Hv).
  rewrite forallb_forall in H. by apply H.
Qed.

Lemma python_finite_elim vs w :
  forallb python_finite vs = true -> w ∈ vs -> exists q, w = PyNum (Fin q).
Proof.
  intros H Hw. apply list_elem_of_In in Hw.
  rewrite forallb_forall in H. specialize (H w Hw).
  destruct w as [[]| |]; try done. by eexists.
Qed.

Lemma numpy_finite_elim vs w :
  forallb numpy_finite vs = true -> w ∈ vs -> exists q, w = NpNum (Fin q).
Proof.
  intros H Hw. apply list_elem_of_In in Hw.
  rewrite forallb_forall in H. specialize (H w Hw).
  destruct w as [|[]|]; try done. by eexists.
Qed.

(** On a constant vector of finite numbers the minimum and the maximum are
    both its first value. *)
Lemma py_min_max_constant kind v vs :
  (kind = PyNum \/ kind = NpNum) ->
  (forall w, w ∈ v :: vs -> exists q, w = kind (Fin q)) ->
  all_equal (v :: vs) = true ->
  py_min (v :: vs) = Ok v /\ py_max (v :: vs) = Ok v.
Proof.
  intros Hkind Hfin Heq'.
  pose proof (fun a b => all_equal_elim _ a b Heq') as Heq. clear Heq'.
  destruct (Hfin v) as [q ->]; [apply elem_of_cons; by left|].
  split; simpl.
  - apply min_loop_keeps. intros w Hw.
    assert (Hw' : w ∈ kind (Fin q) :: vs) by (apply elem_of_cons; by right).
    destruct (Hfin w Hw') as [p ->].
    assert (He : py_eq (kind (Fin p)) (kind (Fin q)) = true).
    { apply Heq; [done|]. apply elem_of_cons; by left. }
    destruct Hkind as [-> | ->]; simpl in *; f_equal; by apply Qltb_irrefl_eq.
  - apply max_loop_keeps. intros w Hw.
    assert (Hw' : w ∈ kind (Fin q) :: vs) by (apply elem_of_cons; by right).
    destruct (Hfin w Hw') as [p ->].
    assert (He : py_eq (kind (Fin q)) (kind (Fin p)) = true).
    { apply Heq; [|done]. apply elem_of_cons; by left. }
    destruct Hkind as [-> | ->]; simpl in *; f_equal; by apply Qltb_irrefl_eq.
Qed.

(** Once the first value is NumPy's NaN, the minimum and the maximum of a
    vector of numbers are NaN. *)
Lemma py_min_max_nan vs :
  (forall w, w ∈ vs -> exists x, w = NpNum x) ->
  py_min (NpNum NaN :: vs) = Ok (NpNum NaN) /\
  py_max (NpNum NaN :: vs) = Ok (NpNum NaN).
Proof.
  intros Hnum. split; simpl.
  - apply min_loop_keeps. intros w Hw. destruct (Hnum w Hw) as [x ->].
    simpl. by destruct x.
  - apply max_loop_keeps. intros w Hw. destruct (Hnum w Hw) as [x ->].
    simpl. by destruct x.
Qed.

Lemma scale_nan x vs :
  (forall w, w ∈ vs -> exists y, w = NpNum y) ->
  scale (NpNum x) (NpNum NaN :: vs) = Ok (NpNum NaN).
Proof.
  intros Hnum. unfold scale.
  destruct (py_min_max_nan vs Hnum) as [-> ->]. simpl. by destruct x.
Qed.

(** After the first key has become NaN every later key becomes NaN. *)
Lemma normalize_keys_nan todo : forall k0 done,
  dict_wf (((k0, NpNum NaN) :: done) ++ todo) ->
  (forall w, w ∈ dict_values done -> exists x, w = NpNum x) ->
  (forall w, w ∈ dict_values todo -> exists x, w = NpNum x) ->
  normalize_keys (dict_keys todo) (((k0, NpNum NaN) :: done) ++ todo)
    = (Ok tt, ((k0, NpNum NaN) :: done) ++ all_nan todo).
Proof.
  induction todo as [|[k v] rest IH]; intros k0 done Hwf Hdone Htodo.
  - done.
  - pose proof (dict_wf_app_fresh _ _ _ _ Hwf) as Hk.
    destruct (Htodo v) as [x ->]; [simpl; apply elem_of_cons; by left|].
    cbn [dict_keys map fst normalize_keys]. unfold normalize_key.
    rewrite (dict_get_app_fresh _ _ _ _ Hk).
    assert (Hs : scale (NpNum x)
                   (dict_values (((k0, NpNum NaN) :: done) ++ (k, NpNum x) :: rest))
                 = Ok (NpNum NaN)).
    { rewrite dict_values_app. apply scale_nan. intros w Hw.
      apply elem_of_app in Hw as [Hw|Hw]; [by apply Hdone|by apply Htodo]. }
    rewrite Hs. cbn [rbind].
    rewrite (dict_set_app_fresh _ _ _ _ _ Hk).
    replace (((k0, NpNum NaN) :: done) ++ (k, NpNum NaN) :: rest)
      with (((k0, NpNum NaN) :: (done ++ [(k, NpNum NaN)])) ++ rest)
      by (simpl; by rewrite <- app_assoc).
    fold (dict_keys rest). rewrite IH.
    + simpl. by rewrite <- app_assoc.
    + eapply dict_wf_keys; [|exact Hwf].
      rewrite !dict_keys_app. simpl. rewrite dict_keys_app.
      by rewrite <- app_assoc.
    + intros w Hw. rewrite dict_values_app in Hw.
      apply elem_of_app in Hw as [Hw|Hw]; [by apply Hdone|].
      simpl in Hw. apply list_elem_of_singleton in Hw as ->. by exists NaN.
    + intros w Hw. apply Htodo. simpl. apply elem_of_cons. by right.
Qed.

(** C3 (amended). A non-empty vector of finite plain Python numbers that
    are all equal makes [normalize_features] raise [ZeroDivisionError] at
    its first key: the error is the interpreter's own, nothing guards the
    division, and the dictionary is left as it was.  When the equal values
    are finite NumPy scalars the call does not fail: it returns the
    dictionary with NaN under every key. *)
Theorem normalize_features_constant (h : heap) l d :
  h !! l = Some d -> dict_wf d -> all_equal (dict_values d) = true ->
  (d <> [] -> forallb python_finite (dict_values d) = true ->
   normalize_features l h = (Raise ZeroDivisionError, h)) /\
  (forallb numpy_finite (dict_values d) = true ->
   normalize_features l h = (Ok l, <[l := all_nan d]> h)).
Proof.
  intros Hl Hwf Heq. rewrite (normalize_features_run h l d Hl). split.
  - intros Hne Hfin'. pose proof (fun w => python_finite_elim _ w Hfin') as Hfin.
    destruct d as [|[k v] rest]; [done|].
    destruct (py_min_max_constant PyNum v (dict_values rest))
      as [Hmin Hmax]; [by left|exact Hfin|exact Heq|].
    destruct (Hfin v) as [q ->]; [simpl; apply elem_of_cons; by left|].
    cbn [dict_keys map fst normalize_keys]. unfold normalize_key.
    cbn [dict_get]. rewrite String.eqb_refl. unfold scale.
    change (dict_values ((k, PyNum (Fin q)) :: rest))
      with (PyNum (Fin q) :: dict_values rest).
    rewrite Hmin, Hmax. cbn [rbind py_sub x_sub py_truediv x_is_zero].
    rewrite Qzero_sub_self. simpl. by rewrite insert_id.
  - intros Hfin'. pose proof (fun w => numpy_finite_elim _ w Hfin') as Hfin.
    destruct d as [|[k v] rest].
    { simpl. by rewrite insert_id. }
    destruct (py_min_max_constant NpNum v (dict_values rest))
      as [Hmin Hmax]; [by right|exact Hfin|exact Heq|].
    destruct (Hfin v) as [q ->]; [simpl; apply elem_of_cons; by left|].
    cbn [dict_keys map fst normalize_keys]. unfold normalize_key.
    cbn [dict_get]. rewrite String.eqb_refl. unfold scale.
    change (dict_values ((k, NpNum (Fin q)) :: rest))
      with (NpNum (Fin q) :: dict_values rest).
    rewrite Hmin, Hmax. cbn [rbind py_sub x_sub py_truediv x_div dict_set].
    rewrite String.eqb_refl, Qzero_sub_self.
    fold (dict_keys rest).
    change ((k, NpNum NaN) :: rest) with (((k, NpNum NaN) :: []) ++ rest).
    rewrite (normalize_keys_nan rest k []).
    + done.
    + exact (dict_wf_keys _ _ eq_refl Hwf).
    + intros w Hw. by apply elem_of_nil in Hw.
    + intros w Hw. destruct (Hfin w) as [p ->]; [|by eexists].
      simpl. apply elem_of_cons. by right.
Qed.

Lemma constant_python_features_wf : dict_wf constant_python_features.
Proof. unfold dict_wf. apply (bool_decide_unpack _). by vm_compute. Qed.

Lemma normalize_features_constant_witness :
  normalize_features 1%positive {[ 1%positive := constant_python_features ]}
    = (Raise ZeroDivisionError, {[ 1%positive := constant_python_features ]}).
Proof.
  refine (proj1 (normalize_features_constant
                   {[ 1%positive := constant_python_features ]}
                   1%positive constant_python_features _ _ _) _ _).
  - reflexivity.
  - exact constant_python_features_wf.
  - reflexivity.
  - discriminate.
  - reflexivity.
Defined.

(** C3 as the specification states it fails on [constant_numpy_features]:
    its three values are equal, and [normalize_features] returns instead of
    failing. *)
Lemma constant_numpy_vector_does_not_fail :
  all_equal (dict_values constant_numpy_features) = true /\
  normalize_features 1%positive {[ 1%positive := constant_numpy_features ]}
    = (Ok 1%positive,
       {[ 1%positive := [("mean", NpNum NaN); ("std", NpNum NaN);
                         ("median", NpNum NaN)] ]}).
Proof. split; vm_compute; reflexivity. Qed.

(** The same on the empty dictionary, whose values are vacuously equal. *)
Lemma empty_vector_does_not_fail :
  all_equal (dict_values []) = true /\
  normalize_features 1%positive {[ 1%positive := [] ]}
    = (Ok 1%positive, {[ 1%positive := [] ]}).
Proof. split; vm_compute; reflexivity. Qed.

(** ** Aliasing *)

Lemma dict_set_app_skip done todo key q :
  key ∉ dict_keys done ->
  dict_set (done ++ todo) key q = done ++ dict_set todo key q.
Proof.
  induction done as [|[k w] done IH]; simpl; intros Hk; [done|].
  apply not_elem_of_cons in Hk as [Hne Hk].
  destruct (String.eqb_spec k key) as [->|_]; [done|]. by rewrite IH.
Qed.

(** Keys that do not occur in a prefix of the dictionary leave it alone. *)
Lemma normalize_keys_frame ks : forall done todo,
  (forall key, key ∈ ks -> key ∉ dict_keys done) ->
  exists todo', snd (normalize_keys ks (done ++ todo)) = done ++ todo'.
Proof.
  induction ks as [|key rest IH]; intros done todo Hks; simpl.
  - by exists todo.
  - unfold normalize_key.
    destruct (dict_get (done ++ todo) key) as [a|]; [|by exists todo].
    destruct (scale a (dict_values (done ++ todo))) as [q|e]; simpl;
      [|by exists todo].
    rewrite dict_set_app_skip by (apply Hks, elem_of_cons; by left).
    apply IH. intros key' Hkey'. apply Hks, elem_of_cons. by right.
Qed.

(** C10. [normalize_features], [add_gender] and [add_digit] return the
    reference they were given, allocate nothing, and write into the
    dictionary it points to: afterwards the store holds the updated
    dictionary at that reference, so every alias of the argument sees it.
    For [normalize_features] this holds also when a later key raises: as
    soon as the first key has been scaled its old value is gone. *)
Theorem dict_functions_mutate_in_place (h : heap) l d :
  h !! l = Some d ->
  (forall gender,
     add_gender l gender h
       = (Ok l, <[l := dict_set d "gender" (PyStr gender)]> h)) /\
  (forall digit,
     add_digit l digit h
       = (Ok l, <[l := dict_set d "digit" (PyStr digit)]> h)) /\
  (exists r d',
     normalize_features l h = (r, <[l := d']> h) /\
     (forall l', r = Ok l' -> l' = l) /\
     dict_keys d' = dict_keys d /\
     (forall key v rest q,
        d = (key, v) :: rest -> dict_wf d ->
        scale v (dict_values d) = Ok q ->
        exists rest', d' = (key, q) :: rest')).
Proof.
  intros Hl. split; [|split].
  - intros gender. unfold add_gender, bind.
    by rewrite (setitem_run h l d _ _ Hl).
  - intros digit. unfold add_digit, bind.
    by rewrite (setitem_run h l d _ _ Hl).
  - rewrite (normalize_features_run h l d Hl).
    eexists _, _. split; [reflexivity|]. split; [|split].
    + intros l'. destruct (normalize_keys (dict_keys d) d).1; congruence.
    + apply normalize_keys_keys.
    + intros key v rest q -> Hwf Hq.
      cbn [dict_keys map fst normalize_keys]. unfold normalize_key.
      cbn [dict_get]. rewrite String.eqb_refl, Hq.
      cbn [rbind dict_set]. rewrite String.eqb_refl.
      apply (normalize_keys_frame _ [(key, q)] rest).
      intros key' Hkey' Hin. apply list_elem_of_singleton in Hin as ->.
      unfold dict_wf in Hwf. simpl in Hwf. apply NoDup_cons in Hwf as [Hn _].
      by apply Hn.
Qed.

Lemma dict_functions_mutate_in_place_witness :
  let h : heap := {[ 1%positive := three_features ]} in
  (forall gender,
     add_gender 1%positive gender h
       = (Ok 1%positive,
          <[1%positive := dict_set three_features "gender" (PyStr gender)]> h)) /\
  (forall digit,
     add_digit 1%positive digit h
       = (Ok 1%positive,
          <[1%positive := dict_set three_features "digit" (PyStr digit)]> h)) /\
  (exists r d',
     normalize_features 1%positive h = (r, <[1%positive := d']> h) /\
     (forall l', r = Ok l' -> l' = 1%positive) /\
     dict_keys d' = dict_keys three_features /\
     (forall key v rest q,
        three_features = (key, v) :: rest -> dict_wf three_features ->
        scale v (dict_values three_features) = Ok q ->
        exists rest', d' = (key, q) :: rest')).
Proof.
  apply (dict_functions_mutate_in_place
           {[ 1%positive := three_features ]} 1%positive three_features).
  reflexivity.
Defined.

(** After [add_gender] the one dictionary of the store carries the label,
    and after [normalize_features] it no longer carries the old values. *)
Example aliases_see_the_update :
  snd (add_gender 1%positive "male" {[ 1%positive := three_features ]})
    !! 1%positive
    = Some (three_features ++ [("gender", PyStr "male")]) /\
  snd (normalize_features 1%positive {[ 1%positive := three_features ]})
    !! 1%positive
    = Some three_features_normalized.
Proof. split; vm_compute; reflexivity. Qed.

(** ** [zero_pad] *)

Lemma rand_bind_map_ok {A B C} (g : C -> A) (k : A -> R B) (l : list C) :
  rand_bind (map (fun c => Ok (g c)) l) k = flat_map (fun c => k (g c)) l.
Proof.
  unfold rand_bind. induction l as [|c l IH]; simpl; [done|]. by rewrite IH.
Qed.

Lemma flat_map_singleton {A B} (f : A -> B) (l : list A) :
  flat_map (fun a => [f a]) l = map f l.
Proof. induction l as [|a l IH]; simpl; [done|]. by rewrite IH. Qed.

(** The slice the code assigns to always has the shape of the data. *)
Lemma slice_assign_zeros (total : Z) (offset : nat) (data : list xfloat) :
  Z.of_nat offset + Z.of_nat (length data) <= total ->
  slice_assign (np_zeros total) (0 + Z.of_nat offset)
      (0 + Z.of_nat offset + Z.of_nat (length data)) data
    = Ok (embedded offset (Z.to_nat total) data).
Proof.
  intros Hfit. unfold slice_assign, np_zeros, slice_bound, embedded.
  rewrite length_replicate.
  destruct (Z.ltb_spec (0 + Z.of_nat offset) 0) as [?|_]; [lia|].
  destruct (Z.ltb_spec (0 + Z.of_nat offset + Z.of_nat (length data)) 0)
    as [?|_]; [lia|].
  replace (Z.to_nat
             (Z.max (Z.min (0 + Z.of_nat offset) (Z.of_nat (Z.to_nat total)))
                (Z.min (0 + Z.of_nat offset + Z.of_nat (length data))
                   (Z.of_nat (Z.to_nat total)))
              - Z.min (0 + Z.of_nat offset) (Z.of_nat (Z.to_nat total))))
    with (length data) by lia.
  rewrite Nat.eqb_refl, take_replicate, drop_replicate.
  do 2 f_equal; [f_equal; lia|]. f_equal. f_equal. lia.
Qed.

(** C4. A signal longer than the target length is never returned, in whole
    or in part: the only outcome of [zero_pad] is the [ValueError] the code
    raises for it. *)
Theorem zero_pad_rejects_longer (self : DataProcessing) (data : list xfloat) :
  target_sr self < Z.of_nat (length data) ->
  zero_pad self data
    = [Raise (ValueError (DataLengthExceeds (Z.of_nat (length data))
                            (target_sr self)))].
Proof.
  intros Hlong. unfold zero_pad.
  destruct (Z.ltb_spec (Z.of_nat (length data)) (target_sr self)); [lia|].
  destruct (Z.eqb_spec (Z.of_nat (length data)) (target_sr self)); [lia|].
  destruct (Z.ltb_spec (target_sr self) (Z.of_nat (length data))); [done|lia].
Qed.

Lemma zero_pad_rejects_longer_witness :
  zero_pad {| target_sr := 2 |} [Fin 1; Fin 2; Fin 3]
    = [Raise (ValueError (DataLengthExceeds 3 2))].
Proof.
  apply (zero_pad_rejects_longer {| target_sr := 2 |} [Fin 1; Fin 2; Fin 3]).
  simpl. lia.
Defined.

(** C5. For a signal of [n] samples, [n] below the target length [total],
    the outcomes of [zero_pad] are, once each and so equally likely, the
    buffers that hold the signal at the offsets 0, ..., [total - n - 1].
    Each of them has length [total], carries the signal unchanged from its
    offset on, and is zero at every other position. *)
Theorem zero_pad_embeds (self : DataProcessing) (data : list xfloat) :
  Z.of_nat (length data) < target_sr self ->
  let total := Z.to_nat (target_sr self) in
  let n := length data in
  zero_pad self data
    = map (fun offset => Ok (embedded offset total data))
        (seq 0 (total - n)) /\
  forall offset : nat, (offset < total - n)%nat ->
    length (embedded offset total data) = total /\
    take n (drop offset (embedded offset total data)) = data /\
    forall i : nat, (i < offset \/ offset + n <= i < total)%nat ->
      embedded offset total data !! i = Some (Fin 0).
Proof.
  intros Hshort total n. split.
  - unfold zero_pad.
    destruct (Z.ltb_spec (Z.of_nat (length data)) (target_sr self)); [|lia].
    unfold randint.
    destruct (Z.leb_spec (target_sr self - Z.of_nat (length data)) 0); [lia|].
    rewrite (rand_bind_map_ok (fun i : nat => 0 + Z.of_nat i)).
    rewrite flat_map_singleton.
    replace (Z.to_nat (target_sr self - Z.of_nat (length data) - 0))
      with (total - n)%nat by (unfold total, n; lia).
    apply map_ext_in. intros offset Hin. apply in_seq in Hin.
    apply slice_assign_zeros. unfold total, n in Hin. lia.
  - unfold n, total. clear n total.
    intros offset Hoff. unfold embedded. split; [|split].
    + rewrite !length_app, !length_replicate. lia.
    + rewrite drop_app_length'; [|by rewrite length_replicate].
      by rewrite take_app_length.
    + intros i [Hi | Hi].
      * rewrite lookup_app_l by (rewrite length_replicate; lia).
        by apply lookup_replicate_2.
      * rewrite lookup_app_r by (rewrite length_replicate; lia).
        rewrite length_replicate.
        rewrite lookup_app_r by lia.
        apply lookup_replicate_2. lia.
Qed.

Lemma zero_pad_embeds_witness :
  zero_pad {| target_sr := 4 |} [Fin 1; Fin 2]
    = [Ok [Fin 1; Fin 2; Fin 0; Fin 0]; Ok [Fin 0; Fin 1; Fin 2; Fin 0]].
Proof.
  refine (eq_trans
            (proj1 (zero_pad_embeds {| target_sr := 4 |} [Fin 1; Fin 2] _)) _).
  - simpl. lia.
  - reflexivity.
Defined.

(** ** [feature_creation] *)

Lemma setitem_insert (h : heap) l d key v :
  setitem l key v (<[l := d]> h) = (Ok tt, <[l := dict_set d key v]> h).
Proof.
  rewrite (setitem_run _ l d) by apply lookup_insert_eq.
  by rewrite insert_insert_eq.
Qed.

Lemma getitem_insert (h : heap) l d key :
  getitem l key (<[l := d]> h) =
    (match dict_get d key with Some v => Ok v | None => Raise (KeyError key) end,
     <[l := d]> h).
Proof. apply getitem_run, lookup_insert_eq. Qed.

Lemma statistics_median_nonempty median_of data :
  data <> [] -> exists med, statistics_median median_of data = Ok med.
Proof. intros Hne. destruct data as [|x data]; [done|]. by eexists. Qed.

Lemma min_loop_numpy best items :
  exists lo, min_loop (NpNum best) (map NpNum items) = Ok (NpNum lo).
Proof.
  revert best. induction items as [|x items IH]; intros best; simpl.
  - by eexists.
  - destruct (x_lt x best); apply IH.
Qed.

Lemma max_loop_numpy best items :
  exists hi, max_loop (NpNum best) (map NpNum items) = Ok (NpNum hi).
Proof.
  revert best. induction items as [|x items IH]; intros best; simpl.
  - by eexists.
  - destruct (x_lt best x); apply IH.
Qed.

Section FeatureCreationProperties.

Variable complex : Type.
Variable np_abs : complex -> xfloat.
Variable np_std : list xfloat -> xfloat.
Variable scipy_stats_skew : list xfloat -> xfloat.
Variable scipy_stats_kurtosis : list xfloat -> xfloat.
Variable np_mean_of : list xfloat -> xfloat.
Variable np_subtract : xfloat -> xfloat -> xfloat.
Variable median_of : list xfloat -> xfloat.

#[local] Abbreviation feature_creation' :=
  (feature_creation complex np_abs np_std scipy_stats_skew
     scipy_stats_kurtosis np_mean_of np_subtract median_of).

(** On a non-empty spectrum no step raises, and the dictionary built is
    the fresh one with these nine entries. *)
Lemma feature_creation_run (fft_data : list complex) (h : heap) :
  fft_data <> [] ->
  let mags := map np_abs fft_data in
  exists med hi lo,
    statistics_median median_of mags = Ok med /\
    py_max (map NpNum mags) = Ok (NpNum hi) /\
    py_min (map NpNum mags) = Ok (NpNum lo) /\
    feature_creation' fft_data h =
      (Ok (fresh (dom h)),
       <[fresh (dom h) :=
           [("mean", NpNum (np_mean np_mean_of mags));
            ("std", NpNum (np_std mags));
            ("median", NpNum med);
            ("max", NpNum hi);
            ("min", NpNum lo);
            ("skewness", NpNum (scipy_stats_skew mags));
            ("kurtosis", NpNum (scipy_stats_kurtosis mags));
            ("dfrange", NpNum (x_sub hi lo));
            ("modindx",
             NpNum (x_div (np_std (np_diff np_subtract mags))
                      (np_mean np_mean_of (np_diff np_subtract mags))))]]> h).
Proof.
  intros Hne mags.
  assert (Hm : mags <> []) by (unfold mags; by destruct fft_data).
  destruct (statistics_median_nonempty median_of mags Hm) as [med Hmed].
  destruct mags as [|m0 rest] eqn:Hmags; [done|].
  destruct (max_loop_numpy m0 rest) as [hi Hhi].
  destruct (min_loop_numpy m0 rest) as [lo Hlo].
  exists med, hi, lo. split; [done|]. split; [exact Hhi|]. split; [exact Hlo|].
  unfold feature_creation', feature_creation. fold mags. rewrite Hmags.
  unfold bind at 1. unfold new_dict at 1. cbv zeta.
  repeat (unfold bind at 1; rewrite setitem_insert).
  unfold bind at 1, lift at 1. rewrite Hmed.
  unfold bind at 1. rewrite setitem_insert.
  unfold bind at 1, lift at 1.
  change (py_max (map NpNum (m0 :: rest)))
    with (max_loop (NpNum m0) (map NpNum rest)). rewrite Hhi.
  unfold bind at 1. rewrite setitem_insert.
  unfold bind at 1, lift at 1.
  change (py_min (map NpNum (m0 :: rest)))
    with (min_loop (NpNum m0) (map NpNum rest)). rewrite Hlo.
  repeat (unfold bind at 1; rewrite setitem_insert).
  unfold bind at 1. rewrite getitem_insert. cbn [dict_set dict_get String.eqb Ascii.eqb Bool.eqb].
  unfold bind at 1. rewrite getitem_insert. cbn [dict_set dict_get String.eqb Ascii.eqb Bool.eqb].
  unfold bind at 1, lift at 1. cbn [py_sub].
  unfold bind at 1. rewrite setitem_insert.
  unfold bind at 1, lift at 1. cbn [py_truediv].
  unfold bind at 1. rewrite setitem_insert.
  unfold ret. reflexivity.
Qed.

(** C6. On every non-empty spectrum [feature_creation] returns a new
    dictionary whose keys are mean, std, median, max, min, skewness,
    kurtosis, dfrange, modindx, in this order, whatever the input. *)
Theorem feature_creation_keys (fft_data : list complex) (h : heap) :
  fft_data <> [] ->
  exists l d,
    feature_creation' fft_data h = (Ok l, <[l := d]> h) /\
    h !! l = None /\
    dict_keys d = feature_keys.
Proof.
  intros Hne.
  destruct (feature_creation_run fft_data h Hne)
    as (med & hi & lo & _ & _ & _ & Hrun).
  eexists _, _. split; [exact Hrun|]. split; [|reflexivity].
  apply not_elem_of_dom, is_fresh.
Qed.

(** C8. When the mean of the first differences of the magnitudes is zero,
    [feature_creation] does not raise: it returns, and the value it stores
    under modindx is NaN or an infinity.  The mean in question is the float
    the code divides by, [np.mean(np.diff(fft_data))] as NumPy returns it,
    whatever its rounding. *)
Theorem feature_creation_modindx_sentinel (fft_data : list complex)
    (h : heap) :
  x_is_zero
    (np_mean np_mean_of (np_diff np_subtract (map np_abs fft_data))) = true ->
  exists l d x,
    feature_creation' fft_data h = (Ok l, <[l := d]> h) /\
    dict_get d "modindx" = Some (NpNum x) /\
    (x_is_nan x || x_is_inf x) = true.
Proof.
  intros Hzero.
  assert (Hne : fft_data <> []).
  { intros ->. discriminate Hzero. }
  destruct (feature_creation_run fft_data h Hne)
    as (med & hi & lo & _ & _ & _ & Hrun).
  eexists _, _, _. split; [exact Hrun|]. split; [reflexivity|].
  destruct (np_mean np_mean_of (np_diff np_subtract (map np_abs fft_data)))
    as [q| | |]; try discriminate Hzero.
  simpl in Hzero.
  destruct (np_std (np_diff np_subtract (map np_abs fft_data)))
    as [p| | |]; simpl;
    rewrite ?Hzero; try reflexivity.
  - destruct (Qzero p); [reflexivity|]. by destruct (Qltb 0 p).
  - unfold Qzero in Hzero. apply Qeq_bool_iff in Hzero.
    unfold Qltb. destruct (Qle_bool 0 q) eqn:Hle; [reflexivity|].
    exfalso. apply not_true_iff_false in Hle. apply Hle.
    apply Qle_bool_iff. rewrite Hzero. apply Qle_refl.
  - unfold Qzero in Hzero. apply Qeq_bool_iff in Hzero.
    unfold Qltb. by destruct (Qle_bool 0 q).
Qed.

End FeatureCreationProperties.

(** ** Concrete runs of [feature_creation] and of the repository's tests *)

Lemma feature_creation_keys_witness :
  exists l d,
    ExactStatistics.feature_creation test_fft_data ∅ = (Ok l, <[l := d]> ∅) /\
    (∅ : heap) !! l = None /\
    dict_keys d = feature_keys.
Proof.
  apply (feature_creation_keys ExactStatistics.complex ExactStatistics.np_abs
           ExactStatistics.np_std ExactStatistics.scipy_stats_skew
           ExactStatistics.scipy_stats_kurtosis ExactStatistics.np_mean_of
           ExactStatistics.np_subtract ExactStatistics.median_of
           test_fft_data ∅).
  discriminate.
Defined.

Lemma feature_creation_modindx_sentinel_witness :
  exists l d x,
    ExactStatistics.feature_creation flat_trend_spectrum ∅
      = (Ok l, <[l := d]> ∅) /\
    dict_get d "modindx" = Some (NpNum x) /\
    (x_is_nan x || x_is_inf x) = true.
Proof.
  apply (feature_creation_modindx_sentinel ExactStatistics.complex
           ExactStatistics.np_abs ExactStatistics.np_std
           ExactStatistics.scipy_stats_skew
           ExactStatistics.scipy_stats_kurtosis ExactStatistics.np_mean_of
           ExactStatistics.np_subtract ExactStatistics.median_of
           flat_trend_spectrum ∅).
  vm_compute. reflexivity.
Defined.

(** The numeric example of the specification: magnitudes 1, 0.28, 0.2, 0.28
    give mean 0.44, min 0.2, max 1 and dfrange 0.8. *)
Example feature_creation_example :
  exists d,
    ExactStatistics.feature_creation example_spectrum ∅
      = (Ok 1%positive, {[ 1%positive := d ]}) /\
    dict_get d "mean" = Some (NpNum (Fin (11 # 25))) /\
    dict_get d "min" = Some (NpNum (Fin (1 # 5))) /\
    dict_get d "max" = Some (NpNum (Fin 1)) /\
    dict_get d "dfrange" = Some (NpNum (Fin (4 # 5))).
Proof.
  eexists. split; [vm_compute; reflexivity|].
  vm_compute. by repeat split.
Qed.

(** An empty spectrum has no median: [statistics.median] raises. *)
Example feature_creation_empty :
  fst (ExactStatistics.feature_creation [] ∅) = Raise StatisticsError.
Proof. vm_compute. reflexivity. Qed.

(** The input of [test_normalize_features] is increasing, from 0 up: on it
    the loop does reach minimum 0 and maximum 1, so the test passes. *)
Example test_normalize_features :
  exists d',
    normalize_features 1%positive {[ 1%positive := test_feature_dict ]}
      = (Ok 1%positive, {[ 1%positive := d' ]}) /\
    py_min (dict_values d') = Ok (PyNum (Fin 0)) /\
    py_max (dict_values d') = Ok (PyNum (Fin 1)).
Proof.
  eexists. split; [vm_compute; reflexivity|].
  vm_compute. by split.
Qed.

(** ** The dataset splitter *)

Module DataSplitProperties.
Import DataSplit.

Lemma py_round_floor q : (Qfloor q <= py_round q)%Z.
Proof.
  unfold py_round. destruct (Qcompare _ _); [|lia|lia].
  destruct (Z.even _); lia.
Qed.

Lemma py_round_upper q : (inject_Z (py_round q) <= q + (1 # 2))%Q.
Proof.
  unfold py_round. pose proof (Qfloor_le q) as Hfl.
  destruct (Qcompare (q - inject_Z (Qfloor q)) (1 # 2)) eqn:Hc.
  - apply Qeq_alt in Hc. destruct (Z.even _); [lra|].
    rewrite inject_Z_plus. change (inject_Z 1) with 1%Q. lra.
  - lra.
  - apply Qgt_alt in Hc. rewrite inject_Z_plus.
    change (inject_Z 1) with 1%Q. lra.
Qed.

Lemma py_round_nonneg q : (0 <= q)%Q -> (0 <= py_round q)%Z.
Proof.
  intros H. pose proof (py_round_floor q).
  pose proof (Qfloor_resp_le 0%Q q H) as Hf.
  change (Qfloor 0) with 0 in Hf. lia.
Qed.

Lemma invalid_ratio_false t v :
  invalid_ratio t v = false -> (0 < t /\ 0 < v /\ t + v < 1)%Q.
Proof.
  unfold invalid_ratio, Qltb. intros H.
  apply orb_false_iff in H as [H Hv]. apply orb_false_iff in H as [Hs Ht].
  apply negb_false_iff, andb_true_iff in Ht as [Ht _].
  apply negb_false_iff, andb_true_iff in Hv as [Hv _].
  apply negb_true_iff in Ht, Hv.
  repeat split; apply Qnot_le_lt; intros Hle; apply Qle_bool_iff in Hle;
    congruence.
Qed.

(** The two rounded counts fit into the table. *)
Lemma rounded_counts_fit t v (n : nat) :
  (0 < t)%Q -> (0 < v)%Q -> (t + v < 1)%Q ->
  let a := py_round (t * inject_Z (Z.of_nat n))%Q in
  let b := py_round (v * inject_Z (Z.of_nat n))%Q in
  (0 <= a /\ 0 <= b /\ a + b <= Z.of_nat n)%Z.
Proof.
  intros Ht Hv Hs a b.
  assert (Hn : (0 <= inject_Z (Z.of_nat n))%Q).
  { change 0%Q with (inject_Z 0). rewrite <- Zle_Qle. lia. }
  assert (Ha : (0 <= a)%Z) by (apply py_round_nonneg; nra).
  assert (Hb : (0 <= b)%Z) by (apply py_round_nonneg; nra).
  split; [done|]. split; [done|].
  pose proof (py_round_upper (t * inject_Z (Z.of_nat n))%Q) as Hua.
  pose proof (py_round_upper (v * inject_Z (Z.of_nat n))%Q) as Hub.
  fold a in Hua. fold b in Hub.
  destruct n as [|n].
  - change (inject_Z (Z.of_nat 0)) with 0%Q in Hua, Hub.
    assert ((inject_Z a < inject_Z 1)%Q) by (change (inject_Z 1) with 1%Q; lra).
    assert ((inject_Z b < inject_Z 1)%Q) by (change (inject_Z 1) with 1%Q; lra).
    rewrite <- Zlt_Qlt in *. simpl. lia.
  - assert (Hpos : (1 <= inject_Z (Z.of_nat (S n)))%Q).
    { change 1%Q with (inject_Z 1). rewrite <- Zle_Qle. lia. }
    assert (Hlt : (inject_Z (a + b) < inject_Z (Z.of_nat (S n) + 1))%Q).
    { rewrite !inject_Z_plus. change (inject_Z 1) with 1%Q. nra. }
    rewrite <- Zlt_Qlt in Hlt. lia.
Qed.

(** Three consecutive slices make up the whole list. *)
Lemma slices_cover {A} (a b : nat) (s : list A) :
  drop (a + b) s ++ take b (drop a s) ++ take a s ≡ₚ s.
Proof.
  transitivity (take a s ++ take b (drop a s) ++ drop (a + b) s).
  - etransitivity; [apply Permutation_app_comm|].
    rewrite <- app_assoc.
    etransitivity; [apply Permutation_app_comm|].
    rewrite <- app_assoc. apply Permutation_app_head, Permutation_app_comm.
  - by rewrite <- drop_drop, !take_drop.
Qed.

Section SplitProperties.

Variable row : Type.
Variable seed : Type.
Variable shuffle : seed -> list row -> list row.
Hypothesis shuffle_permutes :
  forall random_state df, shuffle random_state df ≡ₚ df.

(** C7. With ratios the splitter accepts, [split] returns three lists
    that together are a rearrangement of the rows (none dropped, none
    repeated), pairwise disjoint when the rows are distinct, with
    [round(val_ratio * N)] rows for validation, [round(test_ratio * N)]
    for test and all the others for training; ten rows at ratios one
    tenth give 8, 1 and 1. *)
Theorem split_partitions (self : DataSplit) (random_state : seed)
    (df : list row) (label_column : string) :
  invalid_ratio (test_size self) (val_size self) = false ->
  let n := inject_Z (Z.of_nat (length df)) in
  exists train val test,
    split row seed shuffle self random_state df label_column
      = Partitions train val test /\
    train ++ val ++ test ≡ₚ df /\
    Z.of_nat (length val) = py_round (val_size self * n)%Q /\
    Z.of_nat (length test) = py_round (test_size self * n)%Q /\
    (length train = length df - length val - length test)%nat /\
    (NoDup df ->
       (forall x, x ∈ train -> x ∉ val) /\
       (forall x, x ∈ train -> x ∉ test) /\
       (forall x, x ∈ val -> x ∉ test)) /\
    (length df = 10%nat -> test_size self = 1 # 10 ->
     val_size self = 1 # 10 ->
     length train = 8%nat /\ length val = 1%nat /\ length test = 1%nat).
Proof.
  intros Hvalid n. unfold split. rewrite Hvalid. fold n.
  destruct (invalid_ratio_false _ _ Hvalid) as (Ht & Hv & Hs).
  destruct (rounded_counts_fit _ _ (length df) Ht Hv Hs) as (Ha & Hb & Hab).
  fold n in Ha, Hb, Hab.
  set (a := py_round (test_size self * n)%Q) in *.
  set (b := py_round (val_size self * n)%Q) in *.
  set (s := shuffle random_state df).
  assert (Hlen : length s = length df).
  { apply Permutation_length, shuffle_permutes. }
  eexists _, _, _. split; [reflexivity|].
  assert (Hperm : drop (Z.to_nat a + Z.to_nat b) s
                    ++ take (Z.to_nat b) (drop (Z.to_nat a) s)
                    ++ take (Z.to_nat a) s ≡ₚ df).
  { rewrite slices_cover. apply shuffle_permutes. }
  assert (Hlv : length (take (Z.to_nat b) (drop (Z.to_nat a) s))
                = Z.to_nat b).
  { rewrite length_take, length_drop. lia. }
  assert (Hlt : length (take (Z.to_nat a) s) = Z.to_nat a).
  { rewrite length_take. lia. }
  assert (Hltr : length (drop (Z.to_nat a + Z.to_nat b) s)
                 = (length df - Z.to_nat b - Z.to_nat a)%nat).
  { rewrite length_drop. lia. }
  split; [exact Hperm|]. rewrite Hlv, Hlt, Hltr.
  split; [lia|]. split; [lia|]. split; [lia|]. split.
  - intros Hnd. rewrite <- Hperm in Hnd.
    apply NoDup_app in Hnd as (_ & H1 & Hnd).
    apply NoDup_app in Hnd as (_ & H2 & _).
    split; [|split].
    + intros x Hx Hin. apply (H1 x Hx), elem_of_app. by left.
    + intros x Hx Hin. apply (H1 x Hx), elem_of_app. by right.
    + exact H2.
  - intros H10 Htest Hval. unfold a, b, n.
    rewrite H10, Htest, Hval. by vm_compute.
Qed.

End SplitProperties.

Lemma split_partitions_witness :
  exists train val test,
    split nat unit (fun _ df => rev df)
        {| test_size := 1 # 10; val_size := 1 # 10 |} tt
        [0; 1; 2; 3; 4; 5; 6; 7; 8; 9]%nat "label"
      = Partitions train val test /\
    train = [7; 6; 5; 4; 3; 2; 1; 0]%nat /\ val = [8%nat] /\ test = [9%nat].
Proof.
  destruct (split_partitions nat unit (fun _ df => rev df)
              (fun _ df => Permutation_sym (Permutation_rev df))
              {| test_size := 1 # 10; val_size := 1 # 10 |} tt
              [0; 1; 2; 3; 4; 5; 6; 7; 8; 9]%nat "label" eq_refl)
    as (train & val & test & Hrun & _).
  exists train, val, test. split; [exact Hrun|].
  vm_compute in Hrun. injection Hrun as <- <- <-. done.
Defined.

End DataSplitProperties.

(** ** [zero_pad]: every branch *)

(** The outcomes for a signal shorter than the target length, one per
    offset. *)
Lemma zero_pad_outcomes_short (self : DataProcessing) (data : list xfloat) :
  Z.of_nat (length data) < target_sr self ->
  zero_pad self data
    = map (fun offset => Ok (embedded offset (Z.to_nat (target_sr self)) data))
        (seq 0 (Z.to_nat (target_sr self) - length data)).
Proof.
  intros Hshort. unfold zero_pad.
  destruct (Z.ltb_spec (Z.of_nat (length data)) (target_sr self)); [|lia].
  unfold randint.
  destruct (Z.leb_spec (target_sr self - Z.of_nat (length data)) 0); [lia|].
  rewrite (rand_bind_map_ok (fun i : nat => 0 + Z.of_nat i)).
  rewrite flat_map_singleton.
  replace (Z.to_nat (target_sr self - Z.of_nat (length data) - 0))
    with (Z.to_nat (target_sr self) - length data)%nat by lia.
  apply map_ext_in. intros offset Hin. apply in_seq in Hin.
  apply slice_assign_zeros. lia.
Qed.

Lemma zero_pad_outcomes_exact (self : DataProcessing) (data : list xfloat) :
  Z.of_nat (length data) = target_sr self -> zero_pad self data = [Ok data].
Proof.
  intros Heq. unfold zero_pad.
  destruct (Z.ltb_spec (Z.of_nat (length data)) (target_sr self)); [lia|].
  destruct (Z.eqb_spec (Z.of_nat (length data)) (target_sr self)); [done|lia].
Qed.

Lemma zero_pad_outcomes_long (self : DataProcessing) (data : list xfloat) :
  target_sr self < Z.of_nat (length data) ->
  zero_pad self data
    = [Raise (ValueError (DataLengthExceeds (Z.of_nat (length data))
                            (target_sr self)))].
Proof.
  intros Hlong. unfold zero_pad.
  destruct (Z.ltb_spec (Z.of_nat (length data)) (target_sr self)); [lia|].
  destruct (Z.eqb_spec (Z.of_nat (length data)) (target_sr self)); [lia|].
  destruct (Z.ltb_spec (target_sr self) (Z.of_nat (length data))); [done|lia].
Qed.

(** A returned buffer is the signal itself or the signal embedded at an
    offset that leaves at least one zero after it. *)
Lemma zero_pad_returned (self : DataProcessing) (data buf : list xfloat) :
  Ok buf ∈ zero_pad self data ->
  (Z.of_nat (length data) = target_sr self /\ buf = data) \/
  (Z.of_nat (length data) < target_sr self /\
   exists offset : nat,
     (offset + length data < Z.to_nat (target_sr self))%nat /\
     buf = embedded offset (Z.to_nat (target_sr self)) data).
Proof.
  intros Hin.
  destruct (Z.lt_trichotomy (Z.of_nat (length data)) (target_sr self))
    as [Hlt | [Heq | Hgt]].
  - right. split; [done|].
    rewrite (zero_pad_outcomes_short _ _ Hlt) in Hin.
    apply list_elem_of_In, in_map_iff in Hin as (offset & [= <-] & Hseq).
    apply in_seq in Hseq. exists offset. split; [lia|done].
  - left. split; [done|].
    rewrite (zero_pad_outcomes_exact _ _ Heq) in Hin.
    apply list_elem_of_singleton in Hin. by injection Hin.
  - rewrite (zero_pad_outcomes_long _ _ Hgt) in Hin.
    by apply list_elem_of_singleton in Hin.
Qed.

Lemma embedded_length offset total data :
  (offset + length data <= total)%nat ->
  length (embedded offset total data) = total.
Proof.
  intros H. unfold embedded. rewrite !length_app, !length_replicate. lia.
Qed.

(** X1. Whatever [zero_pad] returns has length exactly [target_sr], and it
    returns something exactly when the signal is not longer than that: a
    result of any other length is never produced. *)
Theorem zero_pad_length_invariant (self : DataProcessing)
    (data : list xfloat) :
  (forall buf, Ok buf ∈ zero_pad self data ->
     Z.of_nat (length buf) = target_sr self) /\
  ((exists buf, Ok buf ∈ zero_pad self data) <->
   Z.of_nat (length data) <= target_sr self).
Proof.
  split.
  - intros buf Hin.
    destruct (zero_pad_returned _ _ _ Hin)
      as [[Heq ->] | (Hlt & offset & Hoff & ->)]; [done|].
    rewrite embedded_length; lia.
  - split.
    + intros [buf Hin].
      destruct (zero_pad_returned _ _ _ Hin) as [[Heq _] | [Hlt _]]; lia.
    + intros Hle. destruct (Z.eq_dec (Z.of_nat (length data)) (target_sr self))
        as [Heq | Hne].
      * exists data. rewrite (zero_pad_outcomes_exact _ _ Heq).
        by apply list_elem_of_singleton.
      * assert (Hlt : Z.of_nat (length data) < target_sr self) by lia.
        exists (embedded 0 (Z.to_nat (target_sr self)) data).
        rewrite (zero_pad_outcomes_short _ _ Hlt).
        apply list_elem_of_In, in_map_iff. exists 0%nat. split; [done|].
        apply in_seq. lia.
Qed.

(** X2. Padding is idempotent: a buffer that [zero_pad] returned is, when
    padded again, returned unchanged and as the only outcome. *)
Theorem zero_pad_idempotent (self : DataProcessing)
    (data buf : list xfloat) :
  Ok buf ∈ zero_pad self data -> zero_pad self buf = [Ok buf].
Proof.
  intros Hin. apply zero_pad_outcomes_exact.
  destruct (zero_pad_returned _ _ _ Hin)
    as [[Heq ->] | (Hlt & offset & Hoff & ->)]; [done|].
  rewrite embedded_length; lia.
Qed.

Lemma zero_pad_idempotent_witness :
  zero_pad {| target_sr := 4 |} [Fin 0; Fin 1; Fin 2; Fin 0]
    = [Ok [Fin 0; Fin 1; Fin 2; Fin 0]].
Proof.
  apply (zero_pad_idempotent {| target_sr := 4 |} [Fin 1; Fin 2]).
  vm_compute. apply list_elem_of_In. right. by left.
Defined.

Lemma filter_replicate_zero (n : nat) :
  List.filter x_nonzero (replicate n (Fin 0)) = [].
Proof. induction n as [|n IH]; [done|]. exact IH. Qed.

(** X3. Padding adds zeros only: the non-zero samples of a returned buffer
    are those of the signal, in the same order. *)
Theorem zero_pad_keeps_nonzero (self : DataProcessing)
    (data buf : list xfloat) :
  Ok buf ∈ zero_pad self data ->
  List.filter x_nonzero buf = List.filter x_nonzero data.
Proof.
  intros Hin.
  destruct (zero_pad_returned _ _ _ Hin)
    as [[Heq ->] | (Hlt & offset & Hoff & ->)]; [done|].
  unfold embedded. rewrite !List.filter_app, !filter_replicate_zero.
  by rewrite app_nil_r.
Qed.

Lemma zero_pad_keeps_nonzero_witness :
  List.filter x_nonzero [Fin 0; Fin 1; Fin 2; Fin 0]
    = List.filter x_nonzero [Fin 1; Fin 2].
Proof.
  apply (zero_pad_keeps_nonzero {| target_sr := 4 |}).
  vm_compute. apply list_elem_of_In. right. by left.
Defined.

(** X4. A shorter signal never ends at the end of the buffer: the offset
    is drawn below [target_sr - len(data)], so the last sample of every
    returned buffer is a padding zero; the buffer that starts with the
    signal is among the outcomes. *)
Theorem zero_pad_last_is_padding (self : DataProcessing)
    (data : list xfloat) :
  Z.of_nat (length data) < target_sr self ->
  (forall buf, Ok buf ∈ zero_pad self data -> last buf = Some (Fin 0)) /\
  Ok (data ++ replicate (Z.to_nat (target_sr self) - length data) (Fin 0))
    ∈ zero_pad self data.
Proof.
  intros Hlt. split.
  - intros buf Hin.
    destruct (zero_pad_returned _ _ _ Hin)
      as [[Heq _] | (_ & offset & Hoff & ->)]; [lia|].
    rewrite last_lookup, embedded_length by lia.
    unfold embedded.
    rewrite lookup_app_r by (rewrite length_replicate; lia).
    rewrite length_replicate.
    rewrite lookup_app_r by lia.
    apply lookup_replicate_2. lia.
  - rewrite (zero_pad_outcomes_short _ _ Hlt).
    apply list_elem_of_In, in_map_iff. exists 0%nat. split.
    + unfold embedded. simpl. by rewrite Nat.sub_0_r.
    + apply in_seq. lia.
Qed.

Lemma zero_pad_last_is_padding_witness :
  (forall buf, Ok buf ∈ zero_pad {| target_sr := 4 |} [Fin 1; Fin 2] ->
     last buf = Some (Fin 0)) /\
  Ok ([Fin 1; Fin 2] ++ replicate (Z.to_nat 4 - 2) (Fin 0))
    ∈ zero_pad {| target_sr := 4 |} [Fin 1; Fin 2].
Proof.
  apply (zero_pad_last_is_padding {| target_sr := 4 |} [Fin 1; Fin 2]).
  simpl. lia.
Defined.

(** ** [normalize_features] and the type of the values *)

Lemma min_loop_str_first s items :
  min_loop (PyStr s) items = Raise TypeError \/
  exists t, min_loop (PyStr s) items = Ok (PyStr t).
Proof.
  revert s. induction items as [|w items IH]; intros s; simpl.
  - right. by eexists.
  - destruct w as [x|x|t]; simpl; [by left|by left|].
    destruct (String.ltb t s); apply IH.
Qed.

Lemma min_loop_num_first best items :
  is_str best = false -> existsb is_str items = true ->
  min_loop best items = Raise TypeError.
Proof.
  revert best. induction items as [|w items IH]; intros best Hb Hs; [done|].
  simpl in *. destruct w as [x|x|t].
  - destruct best as [y|y|?]; [| |done]; simpl;
      (destruct (x_lt x y); by apply IH).
  - destruct best as [y|y|?]; [| |done]; simpl;
      (destruct (x_lt x y); by apply IH).
  - by destruct best.
Qed.

Lemma py_min_with_str vs :
  existsb is_str vs = true ->
  py_min vs = Raise TypeError \/ exists t, py_min vs = Ok (PyStr t).
Proof.
  destruct vs as [|v vs]; [done|]. simpl. intros Hs.
  destruct v as [x|x|s]; simpl in Hs.
  - left. by apply min_loop_num_first.
  - left. by apply min_loop_num_first.
  - apply min_loop_str_first.
Qed.

Lemma scale_with_str a vs :
  existsb is_str vs = true -> scale a vs = Raise TypeError.
Proof.
  intros Hs. unfold scale.
  destruct (py_min_with_str vs Hs) as [-> | [t ->]]; [done|].
  simpl. by destruct a.
Qed.

(** With a string among the values the loop stops at its first key. *)
Lemma normalize_keys_with_str d :
  existsb is_str (dict_values d) = true ->
  normalize_keys (dict_keys d) d = (Raise TypeError, d).
Proof.
  intros Hs. destruct d as [|[k v] rest]; [done|].
  cbn [dict_keys map fst normalize_keys]. unfold normalize_key.
  cbn [dict_get]. rewrite String.eqb_refl.
  by rewrite (scale_with_str v _ Hs).
Qed.

(** X5. A dictionary that holds a string under any key cannot be
    normalised: [normalize_features] raises [TypeError] at the first key and
    leaves the dictionary as it was. *)
Theorem normalize_features_string_value (h : heap) l d :
  h !! l = Some d ->
  existsb is_str (dict_values d) = true ->
  normalize_features l h = (Raise TypeError, h).
Proof.
  intros Hl Hs. rewrite (normalize_features_run h l d Hl).
  rewrite (normalize_keys_with_str d Hs). simpl. by rewrite insert_id.
Qed.

Lemma normalize_features_string_value_witness :
  normalize_features 1%positive {[ 1%positive := labelled_features ]}
    = (Raise TypeError, {[ 1%positive := labelled_features ]}).
Proof.
  apply (normalize_features_string_value
           {[ 1%positive := labelled_features ]} 1%positive labelled_features);
    reflexivity.
Defined.

Lemma dict_set_has_value d key v : v ∈ dict_values (dict_set d key v).
Proof.
  induction d as [|[k w] d IH]; simpl.
  - apply elem_of_cons. by left.
  - destruct (String.eqb k key); simpl; apply elem_of_cons; [by left|by right].
Qed.

Lemma existsb_is_str vs s : PyStr s ∈ vs -> existsb is_str vs = true.
Proof.
  intros Hin. apply existsb_exists. exists (PyStr s).
  split; [by apply list_elem_of_In|done].
Qed.

(** X6. Labels have to be attached last: once [add_gender] or [add_digit]
    has written its string into the dictionary, [normalize_features] on the
    same reference raises [TypeError] and changes nothing. *)
Theorem normalize_after_label_fails (h : heap) l d label :
  h !! l = Some d ->
  normalize_features l (snd (add_gender l label h))
    = (Raise TypeError, snd (add_gender l label h)) /\
  normalize_features l (snd (add_digit l label h))
    = (Raise TypeError, snd (add_digit l label h)).
Proof.
  intros Hl. unfold add_gender, add_digit, bind.
  rewrite !(setitem_run h l d _ _ Hl). simpl.
  assert (Hstr : forall key,
            existsb is_str (dict_values (dict_set d key (PyStr label))) = true).
  { intros key. apply (existsb_is_str _ label), dict_set_has_value. }
  split.
  - rewrite (normalize_features_run _ l _ (lookup_insert_eq _ _ _)).
    rewrite (normalize_keys_with_str _ (Hstr "gender")). simpl.
    by rewrite insert_insert_eq.
  - rewrite (normalize_features_run _ l _ (lookup_insert_eq _ _ _)).
    rewrite (normalize_keys_with_str _ (Hstr "digit")). simpl.
    by rewrite insert_insert_eq.
Qed.

Lemma normalize_after_label_fails_witness :
  let h : heap := {[ 1%positive := three_features ]} in
  normalize_features 1%positive (snd (add_gender 1%positive "male" h))
    = (Raise TypeError, snd (add_gender 1%positive "male" h)) /\
  normalize_features 1%positive (snd (add_digit 1%positive "male" h))
    = (Raise TypeError, snd (add_digit 1%positive "male" h)).
Proof.
  apply (normalize_after_label_fails {[ 1%positive := three_features ]}
           1%positive three_features "male").
  reflexivity.
Defined.

(** ** [normalize_features] on numbers *)

Lemma Qltb_true p q : Qltb p q = true -> (p < q)%Q.
Proof.
  unfold Qltb. intros H. apply negb_true_iff in H.
  apply Qnot_le_lt. intros Hle. apply Qle_bool_iff in Hle. congruence.
Qed.

Lemma Qltb_false p q : Qltb p q = false -> (q <= p)%Q.
Proof.
  unfold Qltb. intros H. apply negb_false_iff in H. by apply Qle_bool_iff.
Qed.

Section FiniteExtremes.

(** The two kinds of number compare alike. *)
Variable kind : xfloat -> pyval.
Hypothesis kind_number : kind = PyNum \/ kind = NpNum.

Lemma py_lt_finite p q : py_lt (kind (Fin p)) (kind (Fin q)) = Ok (Qltb p q).
Proof. by destruct kind_number as [-> | ->]. Qed.

(** On finite numbers the loop of [min] ends on a lower bound that is one
    of the values. *)
Lemma min_loop_finite qs : forall b,
  exists m,
    min_loop (kind (Fin b)) (map (fun q => kind (Fin q)) qs)
      = Ok (kind (Fin m)) /\
    (m <= b)%Q /\ Forall (fun q => (m <= q)%Q) qs /\ In m (b :: qs).
Proof.
  induction qs as [|q qs IH]; intros b; simpl.
  - exists b. repeat split; [apply Qle_refl|constructor|by left].
  - rewrite py_lt_finite. simpl. destruct (Qltb q b) eqn:Hlt.
    + apply Qltb_true in Hlt. destruct (IH q) as (m & Hrun & Hq & Hall & Hin).
      exists m. split; [done|]. split; [lra|]. split; [by constructor|].
      right. exact Hin.
    + apply Qltb_false in Hlt. destruct (IH b) as (m & Hrun & Hb & Hall & Hin).
      exists m. split; [done|]. split; [done|].
      split; [constructor; [lra|done]|].
      destruct Hin as [Hin|Hin]; [by left|right; by right].
Qed.

Lemma max_loop_finite qs : forall b,
  exists m,
    max_loop (kind (Fin b)) (map (fun q => kind (Fin q)) qs)
      = Ok (kind (Fin m)) /\
    (b <= m)%Q /\ Forall (fun q => (q <= m)%Q) qs /\ In m (b :: qs).
Proof.
  induction qs as [|q qs IH]; intros b; simpl.
  - exists b. repeat split; [apply Qle_refl|constructor|by left].
  - rewrite py_lt_finite. simpl. destruct (Qltb b q) eqn:Hlt.
    + apply Qltb_true in Hlt. destruct (IH q) as (m & Hrun & Hq & Hall & Hin).
      exists m. split; [done|]. split; [lra|]. split; [by constructor|].
      right. exact Hin.
    + apply Qltb_false in Hlt. destruct (IH b) as (m & Hrun & Hb & Hall & Hin).
      exists m. split; [done|]. split; [done|].
      split; [constructor; [lra|done]|].
      destruct Hin as [Hin|Hin]; [by left|right; by right].
Qed.

(** [min] and [max] of a non-empty list of finite numbers. *)
Lemma py_min_max_finite q0 qs :
  exists lo hi,
    py_min (map (fun q => kind (Fin q)) (q0 :: qs)) = Ok (kind (Fin lo)) /\
    py_max (map (fun q => kind (Fin q)) (q0 :: qs)) = Ok (kind (Fin hi)) /\
    Forall (fun q => (lo <= q /\ q <= hi)%Q) (q0 :: qs) /\
    In lo (q0 :: qs) /\ In hi (q0 :: qs).
Proof.
  destruct (min_loop_finite qs q0) as (lo & Hmin & Hlo0 & Hlo & Hinlo).
  destruct (max_loop_finite qs q0) as (hi & Hmax & Hhi0 & Hhi & Hinhi).
  exists lo, hi. split; [exact Hmin|]. split; [exact Hmax|].
  split; [|done]. constructor; [done|].
  rewrite Forall_forall in *. intros q Hq. split; [by apply Hlo|by apply Hhi].
Qed.

End FiniteExtremes.

Lemma dict_values_set_forallb (P : pyval -> bool) d key v :
  forallb P (dict_values d) = true -> P v = true ->
  forallb P (dict_values (dict_set d key v)) = true.
Proof.
  intros Hd Hv. induction d as [|[k w] d IH]; simpl in *.
  - by rewrite Hv.
  - apply andb_true_iff in Hd as [Hw Hd].
    destruct (String.eqb k key); simpl; apply andb_true_iff; auto.
Qed.

(** ** Dictionary laws *)

Lemma dict_get_set_eq d key v : dict_get (dict_set d key v) key = Some v.
Proof.
  induction d as [|[k w] d IH]; simpl.
  - by rewrite String.eqb_refl.
  - destruct (String.eqb k key) eqn:Hk; simpl; by rewrite Hk.
Qed.

Lemma dict_get_set_ne d key key' v :
  key <> key' -> dict_get (dict_set d key v) key' = dict_get d key'.
Proof.
  intros Hne. induction d as [|[k w] d IH]; simpl.
  - by destruct (String.eqb_spec key key').
  - destruct (String.eqb_spec k key) as [->|Hk]; simpl.
    + by destruct (String.eqb_spec key key').
    + by rewrite IH.
Qed.

Lemma dict_keys_set_absent d key v :
  key ∉ dict_keys d -> dict_keys (dict_set d key v) = dict_keys d ++ [key].
Proof.
  induction d as [|[k w] d IH]; simpl; intros Hk; [done|].
  apply not_elem_of_cons in Hk as [Hne Hk].
  destruct (String.eqb_spec k key) as [->|_]; [done|]. simpl. by rewrite IH.
Qed.

Lemma dict_get_present d key :
  key ∈ dict_keys d -> exists v, dict_get d key = Some v /\ v ∈ dict_values d.
Proof.
  induction d as [|[k w] d IH]; simpl; intros Hk.
  - by apply elem_of_nil in Hk.
  - destruct (String.eqb_spec k key) as [->|Hne].
    + exists w. split; [done|]. apply elem_of_cons. by left.
    + apply elem_of_cons in Hk as [->|Hk]; [done|].
      destruct (IH Hk) as (v & Hv & Hin). exists v. split; [done|].
      apply elem_of_cons. by right.
Qed.

(** ** [normalize_features] on NumPy scalars *)

Lemma numpy_list vs :
  forallb is_numpy vs = true -> exists xs, vs = map NpNum xs.
Proof.
  induction vs as [|v vs IH]; simpl; intros H.
  - by exists [].
  - apply andb_true_iff in H as [Hv Hvs]. destruct (IH Hvs) as [xs ->].
    destruct v as [|x|]; try done. by exists (x :: xs).
Qed.

Lemma scale_numpy x vs :
  forallb is_numpy vs = true -> vs <> [] ->
  exists y, scale (NpNum x) vs = Ok (NpNum y).
Proof.
  intros Hnp Hne. destruct (numpy_list vs Hnp) as [xs ->].
  destruct xs as [|x0 xs]; [done|]. unfold scale. simpl.
  destruct (min_loop_numpy x0 xs) as [lo ->].
  destruct (max_loop_numpy x0 xs) as [hi ->]. simpl. by eexists.
Qed.

Lemma normalize_keys_numpy ks : forall d,
  (forall key, key ∈ ks -> key ∈ dict_keys d) ->
  forallb is_numpy (dict_values d) = true ->
  exists d',
    normalize_keys ks d = (Ok tt, d') /\
    dict_keys d' = dict_keys d /\
    forallb is_numpy (dict_values d') = true.
Proof.
  induction ks as [|key rest IH]; intros d Hks Hnp; simpl.
  - by exists d.
  - destruct (dict_get_present d key) as (v & Hv & Hin).
    { apply Hks, elem_of_cons. by left. }
    unfold normalize_key. rewrite Hv.
    assert (Hvnp : is_numpy v = true).
    { rewrite forallb_forall in Hnp. by apply Hnp, list_elem_of_In. }
    destruct v as [|x|]; try done.
    destruct (scale_numpy x (dict_values d) Hnp) as [y Hy].
    { intros Hnil. rewrite Hnil in Hin. by apply elem_of_nil in Hin. }
    rewrite Hy. cbn [rbind].
    assert (Hkeys : dict_keys (dict_set d key (NpNum y)) = dict_keys d).
    { apply dict_keys_set_present, Hks, elem_of_cons. by left. }
    destruct (IH (dict_set d key (NpNum y))) as (d' & Hrun & Hk' & Hnp').
    + intros key' Hkey'. rewrite Hkeys. apply Hks, elem_of_cons. by right.
    + by apply dict_values_set_forallb.
    + exists d'. split; [done|]. split; [congruence|done].
Qed.

(** The same fact in the form the proof of the labelled row uses. *)
Lemma normalize_features_numpy_total_aux (h : heap) l d :
  h !! l = Some d ->
  forallb is_numpy (dict_values d) = true ->
  exists d',
    normalize_features l h = (Ok l, <[l := d']> h) /\
    dict_keys d' = dict_keys d /\
    forallb is_numpy (dict_values d') = true.
Proof.
  intros Hl Hnp. rewrite (normalize_features_run h l d Hl).
  destruct (normalize_keys_numpy (dict_keys d) d) as (d' & Hrun & Hk & Hnp');
    [done|done|].
  rewrite Hrun. simpl. by exists d'.
Qed.

Lemma dict_values_set_absent d key v :
  key ∉ dict_keys d -> dict_values (dict_set d key v) = dict_values d ++ [v].
Proof.
  induction d as [|[k w] d IH]; simpl; intros Hk; [done|].
  apply not_elem_of_cons in Hk as [Hne Hk].
  destruct (String.eqb_spec k key) as [->|_]; [done|]. simpl. by rewrite IH.
Qed.

(** X8. [normalize_features] never raises on a dictionary of NumPy scalars,
    which is what [feature_creation] builds: a zero denominator gives NaN or
    an infinity instead.  The call returns the same keys in the same order,
    still with NumPy scalars under them. *)
Theorem normalize_features_numpy_total (h : heap) l d :
  h !! l = Some d ->
  forallb is_numpy (dict_values d) = true ->
  exists d',
    normalize_features l h = (Ok l, <[l := d']> h) /\
    dict_keys d' = dict_keys d /\
    forallb is_numpy (dict_values d') = true.
Proof.
  intros Hl Hnp. rewrite (normalize_features_run h l d Hl).
  destruct (normalize_keys_numpy (dict_keys d) d) as (d' & Hrun & Hk & Hnp');
    [done|done|].
  rewrite Hrun. simpl. by exists d'.
Qed.

Lemma normalize_features_numpy_total_witness :
  exists d',
    normalize_features 1%positive {[ 1%positive := constant_numpy_features ]}
      = (Ok 1%positive,
         <[1%positive := d']> {[ 1%positive := constant_numpy_features ]}) /\
    dict_keys d' = dict_keys constant_numpy_features /\
    forallb is_numpy (dict_values d') = true.
Proof.
  apply (normalize_features_numpy_total
           {[ 1%positive := constant_numpy_features ]} 1%positive
           constant_numpy_features); reflexivity.
Defined.

(** ** Labels *)

(** X10. After [add_gender] the label can be read back under "gender",
    every other key reads as before, and the keys are the old ones, with
    "gender" appended when it was new; likewise for [add_digit] and
    "digit". *)
Theorem add_label_lookup (h : heap) l d label :
  h !! l = Some d ->
  let hg := snd (add_gender l label h) in
  let hd := snd (add_digit l label h) in
  (fst (getitem l "gender" hg) = Ok (PyStr label) /\
   (forall key, key <> "gender" ->
      fst (getitem l key hg) = fst (getitem l key h)) /\
   fst (keys l hg)
     = Ok (if bool_decide ("gender" ∈ dict_keys d) then dict_keys d
           else dict_keys d ++ ["gender"])) /\
  (fst (getitem l "digit" hd) = Ok (PyStr label) /\
   (forall key, key <> "digit" ->
      fst (getitem l key hd) = fst (getitem l key h)) /\
   fst (keys l hd)
     = Ok (if bool_decide ("digit" ∈ dict_keys d) then dict_keys d
           else dict_keys d ++ ["digit"])).
Proof.
  intros Hl hg hd. unfold hg, hd, add_gender, add_digit, bind.
  rewrite !(setitem_run h l d _ _ Hl). simpl.
  split; (split; [|split]).
  - rewrite getitem_insert. by rewrite dict_get_set_eq.
  - intros key Hne. rewrite getitem_insert, (getitem_run h l d key Hl).
    simpl. by rewrite dict_get_set_ne.
  - rewrite (keys_run _ l _ (lookup_insert_eq _ _ _)). simpl. f_equal.
    case_bool_decide.
    + by apply dict_keys_set_present.
    + by apply dict_keys_set_absent.
  - rewrite getitem_insert. by rewrite dict_get_set_eq.
  - intros key Hne. rewrite getitem_insert, (getitem_run h l d key Hl).
    simpl. by rewrite dict_get_set_ne.
  - rewrite (keys_run _ l _ (lookup_insert_eq _ _ _)). simpl. f_equal.
    case_bool_decide.
    + by apply dict_keys_set_present.
    + by apply dict_keys_set_absent.
Qed.

Lemma add_label_lookup_witness :
  let h : heap := {[ 1%positive := three_features ]} in
  let hg := snd (add_gender 1%positive "female" h) in
  let hd := snd (add_digit 1%positive "female" h) in
  (fst (getitem 1%positive "gender" hg) = Ok (PyStr "female") /\
   (forall key, key <> "gender" ->
      fst (getitem 1%positive key hg) = fst (getitem 1%positive key h)) /\
   fst (keys 1%positive hg)
     = Ok (if bool_decide ("gender" ∈ dict_keys three_features)
           then dict_keys three_features
           else dict_keys three_features ++ ["gender"])) /\
  (fst (getitem 1%positive "digit" hd) = Ok (PyStr "female") /\
   (forall key, key <> "digit" ->
      fst (getitem 1%positive key hd) = fst (getitem 1%positive key h)) /\
   fst (keys 1%positive hd)
     = Ok (if bool_decide ("digit" ∈ dict_keys three_features)
           then dict_keys three_features
           else dict_keys three_features ++ ["digit"])).
Proof.
  apply (add_label_lookup {[ 1%positive := three_features ]} 1%positive
           three_features "female").
  reflexivity.
Defined.

(** ** [feature_creation]: edge cases, bounds, and the row it leads to *)

Lemma finite_list xs :
  forallb x_is_finite xs = true -> exists qs, xs = map Fin qs.
Proof.
  induction xs as [|x xs IH]; simpl; intros H.
  - by exists [].
  - apply andb_true_iff in H as [Hx Hxs]. destruct (IH Hxs) as [qs ->].
    destruct x as [q| | |]; try done. by exists (q :: qs).
Qed.

Section FeatureCreationMore.

Variable complex : Type.
Variable np_abs : complex -> xfloat.
Variable np_std : list xfloat -> xfloat.
Variable scipy_stats_skew : list xfloat -> xfloat.
Variable scipy_stats_kurtosis : list xfloat -> xfloat.
Variable np_mean_of : list xfloat -> xfloat.
Variable np_subtract : xfloat -> xfloat -> xfloat.
Variable median_of : list xfloat -> xfloat.

#[local] Abbreviation feature_creation' :=
  (feature_creation complex np_abs np_std scipy_stats_skew
     scipy_stats_kurtosis np_mean_of np_subtract median_of).

#[local] Abbreviation feature_creation_run' :=
  (feature_creation_run complex np_abs np_std scipy_stats_skew
     scipy_stats_kurtosis np_mean_of np_subtract median_of).

(** X11. [feature_creation] raises exactly on the empty spectrum: there
    [statistics.median] raises [StatisticsError]; on every other spectrum
    the call returns a new dictionary. *)
Theorem feature_creation_result (fft_data : list complex) (h : heap) :
  fst (feature_creation' fft_data h)
    = match fft_data with
      | [] => Raise StatisticsError
      | _ :: _ => Ok (fresh (dom h))
      end.
Proof.
  destruct fft_data as [|z rest].
  - unfold feature_creation. cbn [map].
    unfold bind at 1. unfold new_dict at 1. cbv zeta.
    repeat (unfold bind at 1; rewrite setitem_insert).
    unfold bind at 1, lift at 1. reflexivity.
  - destruct (feature_creation_run' (z :: rest) h)
      as (med & hi & lo & _ & _ & _ & Hrun); [done|].
    by rewrite Hrun.
Qed.

(** X12. A spectrum of one coefficient has no first difference: the
    dictionary is built, with the one magnitude as max and as min, and
    modindx is NaN. *)
Theorem feature_creation_single (z : complex) (h : heap) :
  exists l d,
    feature_creation' [z] h = (Ok l, <[l := d]> h) /\
    dict_get d "max" = Some (NpNum (np_abs z)) /\
    dict_get d "min" = Some (NpNum (np_abs z)) /\
    dict_get d "modindx" = Some (NpNum NaN).
Proof.
  destruct (feature_creation_run' [z] h)
    as (med & hi & lo & _ & Hhi & Hlo & Hrun); [done|].
  simpl in Hhi, Hlo. injection Hhi as <-. injection Hlo as <-.
  eexists _, _. split; [exact Hrun|]. split; [reflexivity|].
  split; [reflexivity|]. simpl. do 2 f_equal.
  by destruct (np_std []).
Qed.

(** X13. On a non-empty spectrum whose magnitudes are all finite, the
    features min and max are magnitudes of the spectrum, and every
    magnitude lies between them. *)
Theorem feature_creation_bounds (fft_data : list complex) (h : heap) :
  fft_data <> [] ->
  forallb (fun z => x_is_finite (np_abs z)) fft_data = true ->
  exists l d lo hi,
    feature_creation' fft_data h = (Ok l, <[l := d]> h) /\
    dict_get d "min" = Some (NpNum (Fin lo)) /\
    dict_get d "max" = Some (NpNum (Fin hi)) /\
    (exists z, z ∈ fft_data /\ np_abs z = Fin lo) /\
    (exists z, z ∈ fft_data /\ np_abs z = Fin hi) /\
    (forall z, z ∈ fft_data ->
       exists q, np_abs z = Fin q /\ (lo <= q /\ q <= hi)%Q).
Proof.
  intros Hne Hfin.
  destruct (feature_creation_run' fft_data h Hne)
    as (med & hi & lo & _ & Hhi & Hlo & Hrun).
  cbv zeta in Hhi, Hlo, Hrun.
  assert (Hmags : forallb x_is_finite (map np_abs fft_data) = true).
  { rewrite forallb_forall in *. intros x Hx.
    apply in_map_iff in Hx as (z & <- & Hz). by apply Hfin. }
  destruct (finite_list _ Hmags) as [qs Hqs].
  rewrite Hqs, map_map in Hhi, Hlo.
  destruct qs as [|q0 qs].
  { destruct fft_data; [done|discriminate Hqs]. }
  destruct (py_min_max_finite NpNum (or_intror eq_refl) q0 qs)
    as (lo' & hi' & Hmin & Hmax & Hbounds & Hinlo & Hinhi).
  rewrite Hmin in Hlo. rewrite Hmax in Hhi.
  injection Hlo as <-. injection Hhi as <-.
  eexists _, _, lo', hi'. split; [exact Hrun|].
  split; [reflexivity|]. split; [reflexivity|].
  assert (Hback : forall q, In q (q0 :: qs) ->
                    exists z, z ∈ fft_data /\ np_abs z = Fin q).
  { intros q Hq. apply (in_map Fin) in Hq. rewrite <- Hqs in Hq.
    apply in_map_iff in Hq as (z & Hz & Hin). exists z.
    split; [by apply list_elem_of_In|done]. }
  split; [by apply Hback|]. split; [by apply Hback|].
  rewrite Forall_forall in Hbounds.
  intros z Hz.
  assert (Hin : In (np_abs z) (map Fin (q0 :: qs))).
  { rewrite <- Hqs. apply in_map. by apply list_elem_of_In. }
  apply in_map_iff in Hin as (q & Hq & Hin). exists q. split; [done|].
  by apply Hbounds, list_elem_of_In.
Qed.

(** X9. The row of one recording: on every non-empty spectrum the chain
    [feature_creation], [normalize_features], [add_gender], [add_digit]
    returns, on one and the same new dictionary, whose keys are the nine
    feature keys followed by gender and digit, with the two labels under
    them. *)
Theorem labelled_row (fft_data : list complex) (gender digit : string)
    (h : heap) :
  fft_data <> [] ->
  exists d,
    (features <- feature_creation' fft_data ;;
     n_features <- normalize_features features ;;
     labelled <- add_gender n_features gender ;;
     add_digit labelled digit) h
      = (Ok (fresh (dom h)), <[fresh (dom h) := d]> h) /\
    dict_keys d = feature_keys ++ ["gender"; "digit"] /\
    dict_get d "gender" = Some (PyStr gender) /\
    dict_get d "digit" = Some (PyStr digit) /\
    forallb is_numpy (take 9 (dict_values d)) = true.
Proof.
  intros Hne.
  destruct (feature_creation_run' fft_data h Hne)
    as (med & hi & lo & _ & _ & _ & Hrun).
  cbv zeta in Hrun.
  match type of Hrun with _ = (_, <[_ := ?d9]> _) => set (d := d9) in * end.
  match type of Hrun with
  | _ = (_, ?h1) =>
      destruct (normalize_features_numpy_total_aux h1 (fresh (dom h)) d
                  (lookup_insert_eq _ _ _) eq_refl)
        as (d' & Hnorm & Hkeys & Hnp)
  end.
  rewrite insert_insert_eq in Hnorm.
  exists (dict_set (dict_set d' "gender" (PyStr gender)) "digit" (PyStr digit)).
  split.
  { unfold bind at 1. rewrite Hrun. cbv beta iota.
    unfold bind at 1. rewrite Hnorm. cbv beta iota.
    unfold add_gender, add_digit, bind.
    rewrite (setitem_run _ _ d' _ _ (lookup_insert_eq _ _ _)), insert_insert_eq.
    cbv beta iota. unfold ret at 1.
    rewrite (setitem_run _ _ _ _ _ (lookup_insert_eq _ _ _)), insert_insert_eq.
    reflexivity. }
  assert (Hk1 : dict_keys (dict_set d' "gender" (PyStr gender))
                = feature_keys ++ ["gender"]).
  { rewrite dict_keys_set_absent; rewrite Hkeys; [done|].
    apply (bool_decide_unpack _). by vm_compute. }
  assert (Hd9 : length (dict_values d') = 9%nat).
  { unfold dict_values. rewrite length_map.
    rewrite <- (length_map fst). fold (dict_keys d'). by rewrite Hkeys. }
  split; [|split; [|split]].
  - rewrite dict_keys_set_absent; rewrite Hk1; [done|].
    apply (bool_decide_unpack _). by vm_compute.
  - rewrite dict_get_set_ne by done. apply dict_get_set_eq.
  - apply dict_get_set_eq.
  - rewrite !dict_values_set_absent.
    + rewrite <- app_assoc, take_app_length'; done.
    + rewrite Hkeys. apply (bool_decide_unpack _). by vm_compute.
    + rewrite Hk1. apply (bool_decide_unpack _). by vm_compute.
Qed.

End FeatureCreationMore.

Lemma feature_creation_bounds_witness :
  exists l d lo hi,
    ExactStatistics.feature_creation test_fft_data ∅ = (Ok l, <[l := d]> ∅) /\
    dict_get d "min" = Some (NpNum (Fin lo)) /\
    dict_get d "max" = Some (NpNum (Fin hi)) /\
    (exists z, z ∈ test_fft_data /\ ExactStatistics.np_abs z = Fin lo) /\
    (exists z, z ∈ test_fft_data /\ ExactStatistics.np_abs z = Fin hi) /\
    (forall z, z ∈ test_fft_data ->
       exists q, ExactStatistics.np_abs z = Fin q /\ (lo <= q /\ q <= hi)%Q).
Proof.
  apply (feature_creation_bounds ExactStatistics.complex
           ExactStatistics.np_abs ExactStatistics.np_std
           ExactStatistics.scipy_stats_skew
           ExactStatistics.scipy_stats_kurtosis ExactStatistics.np_mean_of
           ExactStatistics.np_subtract ExactStatistics.median_of
           test_fft_data ∅).
  - discriminate.
  - reflexivity.
Defined.

Lemma labelled_row_witness :
  exists d,
    (features <- ExactStatistics.feature_creation test_fft_data ;;
     n_features <- normalize_features features ;;
     labelled <- add_gender n_features "female" ;;
     add_digit labelled "7") ∅
      = (Ok (fresh (dom (∅ : heap))), <[fresh (dom (∅ : heap)) := d]> ∅) /\
    dict_keys d = feature_keys ++ ["gender"; "digit"] /\
    dict_get d "gender" = Some (PyStr "female") /\
    dict_get d "digit" = Some (PyStr "7") /\
    forallb is_numpy (take 9 (dict_values d)) = true.
Proof.
  apply (labelled_row ExactStatistics.complex ExactStatistics.np_abs
           ExactStatistics.np_std ExactStatistics.scipy_stats_skew
           ExactStatistics.scipy_stats_kurtosis ExactStatistics.np_mean_of
           ExactStatistics.np_subtract ExactStatistics.median_of
           test_fft_data "female" "7" ∅).
  discriminate.
Defined.

(** ** The file name of a recording *)

Lemma append_cons c (s t : string) :
  (String c s ++ t)%string = String c (s ++ t)%string.
Proof. reflexivity. Qed.

Lemma append_nil_l (t : string) : ("" ++ t)%string = t.
Proof. reflexivity. Qed.

Lemma append_nil_r (s : string) : (s ++ "")%string = s.
Proof.
  induction s as [|c s IH]; [done|]. by rewrite append_cons, IH.
Qed.

Lemma append_length (s t : string) :
  String.length (s ++ t)%string = (String.length s + String.length t)%nat.
Proof.
  induction s as [|c s IH]; [done|]. rewrite append_cons. simpl.
  by rewrite IH.
Qed.

Lemma char_in_append c (s t : string) :
  char_in c (s ++ t)%string = char_in c s || char_in c t.
Proof.
  induction s as [|c' s IH]; [done|]. rewrite append_cons.
  unfold char_in in *. simpl. by rewrite IH, orb_assoc.
Qed.

Lemma char_in_cons c c' (s : string) :
  char_in c (String c' s) = Ascii.eqb c c' || char_in c s.
Proof. done. Qed.

Lemma str_split_nonempty sep s : str_split sep s <> [].
Proof.
  destruct s as [|c s]; simpl; [done|].
  destruct (Ascii.eqb c sep); [done|]. by destruct (str_split sep s).
Qed.

(** Splitting distributes over a separator. *)
Lemma str_split_append sep (a b : string) :
  str_split sep (a ++ String sep b)%string
    = str_split sep a ++ str_split sep b.
Proof.
  induction a as [|c a IH]; [rewrite append_nil_l|rewrite append_cons]; simpl.
  - by rewrite Ascii.eqb_refl.
  - rewrite IH. destruct (Ascii.eqb c sep); [done|].
    pose proof (str_split_nonempty sep a).
    by destruct (str_split sep a).
Qed.

Lemma str_split_no_sep sep (s : string) :
  char_in sep s = false -> str_split sep s = [s].
Proof.
  induction s as [|c s IH]; simpl; [done|].
  rewrite char_in_cons. intros [Hc Hs]%orb_false_iff.
  rewrite Ascii.eqb_sym, Hc. by rewrite IH.
Qed.

Lemma str_split_length sep (s : string) :
  length (str_split sep s) = S (count_char sep s).
Proof.
  induction s as [|c s IH]; simpl; [done|].
  destruct (Ascii.eqb c sep); simpl; [by rewrite IH|].
  pose proof (str_split_nonempty sep s).
  destruct (str_split sep s); [done|]. simpl in *. lia.
Qed.

(** The last piece of a split is a suffix of the string. *)
Lemma str_split_last_suffix sep (s name : string) :
  last (str_split sep s) = Some name ->
  exists pre : string, s = (pre ++ name)%string.
Proof.
  revert name. induction s as [|c s IH]; intros name; simpl.
  - intros [= <-]. by exists ""%string.
  - pose proof (str_split_nonempty sep s) as Hne.
    assert (Hcons : forall pre t : string,
              String c (pre ++ t)%string = (String c pre ++ t)%string) by done.
    destruct (Ascii.eqb c sep).
    + destruct (str_split sep s) as [|w ws] eqn:Hs; [done|].
      rewrite last_cons_cons. intros Hl.
      destruct (IH _ Hl) as [pre ->]. exists (String c pre). apply Hcons.
    + destruct (str_split sep s) as [|w ws] eqn:Hs; [done|].
      destruct ws as [|w' ws].
      * simpl. intros [= <-]. simpl in IH.
        destruct (IH w eq_refl) as [pre Hpre].
        destruct pre as [|c' pre].
        -- rewrite append_nil_l in Hpre. subst. by exists ""%string.
        -- exfalso. apply (f_equal String.length) in Hpre.
           assert (Hlen : String.length s = String.length w).
           { assert (Hno : count_char sep s = 0%nat).
             { pose proof (str_split_length sep s) as Hl.
               rewrite Hs in Hl. simpl in Hl. lia. }
             clear -Hs Hno. revert w Hs.
             induction s as [|c s IH]; intros w; simpl in *.
             - by intros [= <-].
             - destruct (Ascii.eqb c sep); [done|].
               pose proof (str_split_nonempty sep s).
               destruct (str_split sep s) as [|w0 ws0]; [done|].
               intros [= <- ->]. simpl. f_equal. by apply IH. }
           rewrite append_length in Hpre. simpl in Hpre. lia.
      * rewrite !last_cons_cons. rewrite last_cons_cons in IH.
        intros Hl. destruct (IH _ Hl) as [pre ->]. exists (String c pre).
        apply Hcons.
Qed.

Lemma str_rstrip_length chars (s : string) :
  (String.length (str_rstrip chars s) <= String.length s)%nat.
Proof.
  induction s as [|c s IH]; simpl; [done|].
  destruct (str_rstrip chars s); [|simpl in *; lia].
  destruct (char_in c chars); simpl; lia.
Qed.

(** Stripping a concatenation: if the right part is stripped away entirely
    the left part is stripped next, otherwise the left part stays. *)
Lemma str_rstrip_append chars (s t : string) :
  str_rstrip chars (s ++ t)%string
    = match str_rstrip chars t with
      | EmptyString => str_rstrip chars s
      | String _ _ as t' => (s ++ t')%string
      end.
Proof.
  induction s as [|c s IH].
  - rewrite append_nil_l. by destruct (str_rstrip chars t).
  - rewrite append_cons. cbn [str_rstrip]. rewrite IH.
    destruct (str_rstrip chars t) as [|c' t']; [done|].
    rewrite append_cons. by destruct s.
Qed.

Lemma str_rstrip_sep chars c (a b : string) :
  char_in c chars = false ->
  str_rstrip chars (a ++ String c b)%string
    = (a ++ String c (str_rstrip chars b))%string.
Proof.
  intros Hc. rewrite str_rstrip_append. cbn [str_rstrip].
  destruct (str_rstrip chars b); [by rewrite Hc|done].
Qed.

(** A suffix of a string that stripping leaves alone is left alone too. *)
Lemma str_rstrip_stable_suffix chars (pre t : string) :
  str_rstrip chars (pre ++ t)%string = (pre ++ t)%string ->
  str_rstrip chars t = t.
Proof.
  rewrite str_rstrip_append.
  destruct (str_rstrip chars t) as [|c t'] eqn:Ht.
  - intros H. apply (f_equal String.length) in H.
    rewrite append_length in H.
    pose proof (str_rstrip_length chars pre).
    destruct t; [done|]. simpl in H. lia.
  - intros H. by apply (inj (String.append pre)) in H.
Qed.

Lemma str_rstrip_cons chars c (s : string) c' t :
  str_rstrip chars s = String c' t ->
  str_rstrip chars (String c s) = String c (String c' t).
Proof. intros H. cbn [str_rstrip]. by rewrite H. Qed.

Lemma str_rstrip_idempotent chars (s : string) :
  str_rstrip chars (str_rstrip chars s) = str_rstrip chars s.
Proof.
  induction s as [|c s IH]; [done|]. cbn [str_rstrip].
  destruct (str_rstrip chars s) as [|c' t] eqn:Hs.
  - destruct (char_in c chars) eqn:Hc; [done|]. simpl. by rewrite Hc.
  - by apply str_rstrip_cons.
Qed.

(** X14. A path that ends in [dig_vp_rep.wav] is taken apart into exactly
    these three names, whatever the directories before it, provided the
    names hold no slash or underscore and the repetition does not end in a
    dot or in one of the letters w, a, v. *)
Theorem split_file_string_round_trip (dir dig vp rep : string) :
  char_in "/" dig = false -> char_in "_" dig = false ->
  char_in "/" vp = false -> char_in "_" vp = false ->
  char_in "/" rep = false -> char_in "_" rep = false ->
  str_rstrip ".wav" rep = rep ->
  split_file_string
      (dir ++ String "/" (dig ++ String "_" (vp ++ String "_"
         (rep ++ ".wav"))))%string
    = FileParts dig vp rep.
Proof.
  intros Hd1 Hd2 Hv1 Hv2 Hr1 Hr2 Hrep. unfold split_file_string.
  rewrite !str_rstrip_sep by done.
  replace (str_rstrip ".wav" (rep ++ ".wav")%string) with rep.
  2:{ rewrite str_rstrip_append. simpl str_rstrip at 1. by rewrite Hrep. }
  rewrite (str_split_append "/" dir), last_app.
  rewrite (str_split_no_sep "/").
  2:{ rewrite char_in_append, char_in_cons, char_in_append, char_in_cons.
      by rewrite Hd1, Hv1, Hr1. }
  cbn [last].
  rewrite (str_split_append "_" dig), (str_split_append "_" vp).
  by rewrite !str_split_no_sep.
Qed.

Lemma split_file_string_round_trip_witness :
  split_file_string
      ("C:/AudioMNIST/audio/01"
         ++ String "/" ("0" ++ String "_" ("01" ++ String "_"
              ("12" ++ ".wav"))))%string
    = FileParts "0" "01" "12".
Proof.
  apply (split_file_string_round_trip "C:/AudioMNIST/audio/01" "0" "01" "12");
    reflexivity.
Defined.

(** X15. The line raises exactly when the last path element of the
    stripped name does not hold two underscores: then the unpacking finds
    one value more than there are underscores.  It never raises
    [IndexError]. *)
Theorem split_file_string_unpack (file : string) :
  let n := count_char "_" (file_stem file) in
  if Nat.eqb n 2 then
    exists dig vp rep, split_file_string file = FileParts dig vp rep
  else split_file_string file = FileNameError (UnpackValueError (S n)).
Proof.
  unfold file_stem, split_file_string.
  pose proof (str_split_nonempty "/" (str_rstrip ".wav" file)) as Hne.
  destruct (last (str_split "/" (str_rstrip ".wav" file))) as [name|] eqn:Hl.
  2:{ apply last_None in Hl. done. }
  cbv zeta. pose proof (str_split_length "_" name) as Hlen.
  destruct (str_split "_" name) as [|a [|b [|c [|e parts]]]];
    simpl in Hlen; try discriminate Hlen;
    injection Hlen as Hn; rewrite <- Hn; simpl; eauto.
Qed.

(** X16. [rstrip(".wav")] strips characters, not the suffix: the
    repetition that comes out never ends in a dot or in w, a or v, so a
    name whose repetition ends in one of them is not given back as it was
    written. *)
Theorem split_file_string_rep_stripped (file dig vp rep : string) :
  split_file_string file = FileParts dig vp rep ->
  str_rstrip ".wav" rep = rep.
Proof.
  unfold split_file_string.
  destruct (last (str_split "/" (str_rstrip ".wav" file))) as [name|] eqn:Hl;
    [|done].
  destruct (str_split "_" name) as [|a [|b [|c [|e parts]]]] eqn:Hs; try done.
  intros [= -> -> ->].
  destruct (str_split_last_suffix _ _ _ Hl) as [pre Hpre].
  assert (Hname : str_rstrip ".wav" name = name).
  { apply (str_rstrip_stable_suffix _ pre). rewrite <- Hpre.
    apply str_rstrip_idempotent. }
  assert (Hlast : last (str_split "_" name) = Some rep) by (by rewrite Hs).
  destruct (str_split_last_suffix _ _ _ Hlast) as [pre' Hpre'].
  apply (str_rstrip_stable_suffix _ pre'). by rewrite <- Hpre'.
Qed.

Lemma split_file_string_rep_stripped_witness :
  str_rstrip ".wav" "3" = "3".
Proof.
  apply (split_file_string_rep_stripped "audio/01/0_01_3a.wav" "0" "01" "3").
  reflexivity.
Defined.

(** ** [create_log_df] *)

Lemma zip5_lookup {A B C D} (b : list A) : forall (k i : nat)
    (c : list B) (d : list C) (e : list D),
  zip5 (seq k (length b)) b c d e !! i
    = match b !! i, c !! i, d !! i, e !! i with
      | Some x, Some y, Some z, Some u => Some ((k + i)%nat, x, y, z, u)
      | _, _, _, _ => None
      end.
Proof.
  induction b as [|x b IH]; intros k i c d e.
  { simpl. by rewrite !lookup_nil. }
  destruct c as [|y c].
  { simpl. rewrite !lookup_nil. by destruct ((x :: b) !! i). }
  destruct d as [|z d].
  { simpl. rewrite !lookup_nil.
    by destruct ((x :: b) !! i), ((y :: c) !! i). }
  destruct e as [|u e].
  { simpl. rewrite !lookup_nil.
    by destruct ((x :: b) !! i), ((y :: c) !! i), ((z :: d) !! i). }
  destruct i as [|i]; simpl.
  - by rewrite Nat.add_0_r.
  - rewrite IH. by replace (S k + i)%nat with (k + S i)%nat by lia.
Qed.

Lemma zip5_length {A B C D} (b : list A) : forall (k : nat)
    (c : list B) (d : list C) (e : list D),
  length (zip5 (seq k (length b)) b c d e)
    = Nat.min (length b) (Nat.min (length c) (Nat.min (length d) (length e))).
Proof.
  induction b as [|x b IH]; intros k c d e; [done|].
  destruct c as [|y c], d as [|z d], e as [|u e]; simpl; try lia.
  by rewrite IH.
Qed.

(** X17. When the four series are in the log, [create_log_df] returns a
    frame with as many rows as the shortest of them, longer series being
    cut without notice; row [i] holds [i] and the [i]-th training loss,
    training accuracy, validation loss and validation accuracy, each under
    the column of its name. *)
Theorem create_log_df_rows {metric : Type}
    (log_data : gmap string (gmap string (list metric)))
    (train_loss val_loss train_acc val_acc : list metric) :
  log_series metric log_data "validation_0" "logloss" = Ok train_loss ->
  log_series metric log_data "validation_1" "logloss" = Ok val_loss ->
  log_series metric log_data "validation_0" "accuracy" = Ok train_acc ->
  log_series metric log_data "validation_1" "accuracy" = Ok val_acc ->
  exists df,
    create_log_df metric log_data = Ok df /\
    log_columns df
      = ["iteration"; "train_loss"; "train_acc"; "val_loss"; "val_acc"] /\
    length (log_rows df)
      = Nat.min (length train_loss)
          (Nat.min (length train_acc)
             (Nat.min (length val_loss) (length val_acc))) /\
    forall i : nat,
      log_rows df !! i
        = match train_loss !! i, train_acc !! i, val_loss !! i, val_acc !! i with
          | Some tl, Some ta, Some vl, Some va => Some (i, tl, ta, vl, va)
          | _, _, _, _ => None
          end.
Proof.
  intros H1 H2 H3 H4. unfold create_log_df. rewrite H1, H2, H3, H4. simpl.
  eexists. split; [reflexivity|]. split; [reflexivity|]. simpl.
  split; [apply zip5_length|]. intros i. by rewrite zip5_lookup.
Qed.

Lemma create_log_df_rows_witness :
  exists df,
    create_log_df Q example_log = Ok df /\
    log_columns df
      = ["iteration"; "train_loss"; "train_acc"; "val_loss"; "val_acc"] /\
    length (log_rows df) = 2%nat /\
    forall i : nat,
      log_rows df !! i
        = match [6 # 10; 5 # 10; 4 # 10]%Q !! i, [7 # 10; 8 # 10; 9 # 10]%Q !! i,
                [7 # 10; 6 # 10; 6 # 10]%Q !! i, [6 # 10; 7 # 10]%Q !! i with
          | Some tl, Some ta, Some vl, Some va => Some (i, tl, ta, vl, va)
          | _, _, _, _ => None
          end.
Proof.
  apply (create_log_df_rows example_log
           [6 # 10; 5 # 10; 4 # 10]%Q [7 # 10; 6 # 10; 6 # 10]%Q
           [7 # 10; 8 # 10; 9 # 10]%Q [6 # 10; 7 # 10]%Q);
    vm_compute; reflexivity.
Defined.

(** ** [remove_column] *)

Lemma existsb_eqb_In column names :
  existsb (String.eqb column) names = true <-> column ∈ names.
Proof.
  rewrite existsb_exists. split.
  - intros (x & Hx & ->%String.eqb_eq). by apply list_elem_of_In.
  - intros Hin. exists column. split; [by apply list_elem_of_In|].
    apply String.eqb_refl.
Qed.

Lemma filter_absent_label column (cols : list (string * list pyval)) :
  column ∉ map fst cols ->
  List.filter (fun c => negb (String.eqb (fst c) column)) cols = cols.
Proof.
  induction cols as [|[k v] cols IH]; simpl; intros Hk; [done|].
  apply not_elem_of_cons in Hk as [Hne Hk].
  destruct (String.eqb_spec k column) as [->|_]; [done|]. simpl.
  by rewrite IH.
Qed.

Lemma filter_label_gone column (cols : list (string * list pyval)) :
  column ∉ map fst
    (List.filter (fun c => negb (String.eqb (fst c) column)) cols).
Proof.
  induction cols as [|[k v] cols IH]; simpl; [apply not_elem_of_nil|].
  destruct (String.eqb_spec k column) as [->|Hne]; simpl; [done|].
  apply not_elem_of_cons. split; [congruence|done].
Qed.

(** X18. [remove_column] always returns a frame: in it no column carries
    the given label, every other column is kept with its data and in its
    place, and the number of rows is unchanged.  The message is printed
    exactly when the label was absent, so a second call on the result
    changes nothing and prints it. *)
Theorem remove_column_removes (df : DataFrame) (column : string) :
  exists df',
    fst (remove_column df column) = Ok df' /\
    (column ∉ column_names df') /\
    df_columns df'
      = List.filter (fun c => negb (String.eqb (fst c) column))
          (df_columns df) /\
    df_rows df' = df_rows df /\
    (snd (remove_column df column) = [] <-> column ∈ column_names df) /\
    remove_column df' column
      = (Ok df', [(column ++ " not found in DataFrame.")%string]).
Proof.
  unfold remove_column, df_drop.
  destruct (existsb (String.eqb column) (column_names df)) eqn:Hin.
  - eexists. split; [reflexivity|]. cbn [fst snd df_columns df_rows].
    pose proof (filter_label_gone column (df_columns df)) as Hgone.
    split; [exact Hgone|]. split; [done|]. split; [done|].
    split; [split; [intros _; by apply existsb_eqb_In|done]|].
    unfold column_names at 1. cbn [df_columns].
    destruct (existsb _ (map fst (List.filter _ _))) eqn:Hex; [|done].
    by apply existsb_eqb_In in Hex.
  - assert (Hnot : column ∉ column_names df).
    { intros H. apply existsb_eqb_In in H. congruence. }
    exists df. split; [done|]. split; [done|].
    split; [by rewrite filter_absent_label|]. split; [done|].
    split; [|by rewrite Hin]. cbn [snd]. by split.
Qed.
